(** * GreenThumb: locale formatting and the remote analysis client

    A shallow embedding of the TypeScript sources

      - [src/services/plantAnalysisApi.ts]  (analyzePlantImage, checkApiHealth,
                                             getDatasetStats, getModelInfo)
      - [src/pages/PlantHealth.tsx]         (handleImageSelect, handleAnalyze,
                                             getSeverityColor, getSeverityLabel)
      - [src/components/ImageUpload.tsx]    (handleFileChange, handleDrop)
      - [src/utils/dateUtils.ts]            (getLocaleCode, getMonthAbbr,
                                             getMonthName, formatNumber,
                                             formatNumberWithPercent,
                                             formatDecimal)
      - [src/i18n/config.ts]                (getSavedLanguage, initialLanguage,
                                             the languageChanged handler)
      - [src/pages/Dashboard.tsx]           (the month labels of the chart)
      - [src/pages/SoilAnalysis.tsx]        (getRecommendation, isOptimal)
      - [src/pages/Auth.tsx], [src/pages/DashboardLayout.tsx]
                                            (handleSubmit, the guard,
                                             handleLogout)

    together with the properties of the specification that concern them.
    What the platform provides is modelled after its standards: [fetch]
    and [Response], property lookup and the conversions of ECMAScript,
    number formatting after ECMA-402, and the lookup of [i18next] with
    its default options.  A finite number is handed to the formatters as
    the decimal [Number::toString] prints for it, a rational (see
    "Number formatting by the runtime"); negative zero, [NaN] and the
    infinities are left out.

    Conventions.  An [async] function is a computation in the monad
    [Async]: it reads the world (the network, the clock), appends to a
    trace of observable events (requests issued, console output) and
    completes either normally or by throwing; a rejected promise that is
    awaited is a throw.  The process-wide [i18n] singleton and the
    browser's [localStorage] are passed explicitly. *)

From Stdlib Require Import ZArith QArith Bool List Ascii String DecimalString
  DecimalN Lia.
From stdpp Require Import base option strings gmap.

Local Open Scope string_scope.
Local Open Scope Z_scope.

Set Warnings "-register-all".

(** ** JavaScript values *)

(** Values that [JSON.parse] can produce, extended with [undefined] (the
    result of reading an absent property) and with the built-in members
    every object literal inherits from [Object.prototype].  A number is
    identified by its canonical rendering ([Number::toString]): the only
    operations the program applies to a parsed number are [ToString] and
    [ToBoolean], and both are functions of that rendering (both zeros
    render as "0", and [NaN] is not JSON). *)
Inductive JsValue : Type :=
| JUndefined
| JNull
| JBool (b : bool)
| JNum (repr : string)
| JStr (s : string)
| JArr (items : list JsValue)
| JObj (fields : list (string * JsValue))
| JBuiltin (name : string).

(** An [Error] instance: its [name] and its [message]. *)
Record JsError : Type := mkError { err_name : string; err_message : string }.

(** What a [throw] (or a rejected promise) carries: in JavaScript any
    value, in this program always an [Error] instance; [err instanceof
    Error] tells them apart. *)
Inductive Thrown : Type :=
| ThrownError (e : JsError)
| ThrownValue (v : JsValue).

Inductive Completion (A : Type) : Type :=
| Normal (a : A)
| Throw (t : Thrown).
Arguments Normal {A} a.
Arguments Throw {A} t.

(** [ToBoolean]. *)
Definition ToBoolean (v : JsValue) : bool :=
  match v with
  | JUndefined | JNull => false
  | JBool b => b
  | JNum repr => negb (String.eqb repr "0")
  | JStr s => negb (String.eqb s "")
  | JArr _ | JObj _ | JBuiltin _ => true
  end.

(** [a || b]. *)
Definition js_or (a b : JsValue) : JsValue := if ToBoolean a then a else b.

(** Sequencing of synchronous code that may throw. *)
Definition Completion_bind {A B} (c : Completion A) (k : A -> Completion B)
  : Completion B :=
  match c with
  | Normal a => k a
  | Throw t => Throw t
  end.

Notation "'let+' x := c 'in' k" := (Completion_bind c (fun x => k))
  (at level 10, x name, c at level 100, k at level 200).

(** The names every object literal inherits from [Object.prototype]. *)
Definition Object_prototype_names : list string :=
  ["constructor"; "toString"; "toLocaleString"; "valueOf"; "hasOwnProperty";
   "isPrototypeOf"; "propertyIsEnumerable"; "__proto__";
   "__defineGetter__"; "__defineSetter__"; "__lookupGetter__";
   "__lookupSetter__"].

Definition inherited (key : string) : bool :=
  existsb (String.eqb key) Object_prototype_names.

Fixpoint own_property (fields : list (string * JsValue)) (key : string)
  : option JsValue :=
  match fields with
  | [] => None
  | (k, v) :: rest => if String.eqb k key then Some v else own_property rest key
  end.

(** [obj[key]] on an object literal: the own property, else the member
    inherited from [Object.prototype], else [undefined]. *)
Definition object_get (fields : list (string * JsValue)) (key : string) : JsValue :=
  match own_property fields key with
  | Some v => v
  | None => if inherited key then JBuiltin key else JUndefined
  end.

Definition TypeError (message : string) : Thrown :=
  ThrownError (mkError "TypeError" message).

(** [v.key] (or [v[key]]).  Reading a property of [null] or [undefined]
    throws a [TypeError]; a primitive or an array is read through its
    wrapper, of which only the members shared with [Object.prototype] are
    modelled (the program reads [detail] and [message] only). *)
Definition js_get (v : JsValue) (key : string) : Completion JsValue :=
  match v with
  | JUndefined =>
      Throw (TypeError ("Cannot read properties of undefined (reading '"
                          +:+ key +:+ "')"))
  | JNull =>
      Throw (TypeError ("Cannot read properties of null (reading '"
                          +:+ key +:+ "')"))
  | JObj fields => Normal (object_get fields key)
  | _ => Normal (if inherited key then JBuiltin key else JUndefined)
  end.

(** [ToString] on the values above.  An array is its elements joined by
    commas, [null] and [undefined] elements rendering as nothing, and the
    conversion of an element may throw.  A plain object is converted by
    the [toString] it inherits, to "[object Object]"; when it has a
    [toString] field of its own, which JSON cannot make callable, and
    since the inherited [valueOf] returns the object itself, no
    conversion applies and a [TypeError] is thrown.  An inherited member
    is a native function ([constructor] is the function [Object]), and
    [__proto__] is the object [Object.prototype]. *)
Fixpoint join_completions (parts : list (Completion string))
  : Completion string :=
  match parts with
  | [] => Normal ""
  | part :: rest =>
      let+ first := part in
      match rest with
      | [] => Normal first
      | _ :: _ =>
          let+ others := join_completions rest in
          Normal (first +:+ "," +:+ others)
      end
  end.

Fixpoint ToString (v : JsValue) : Completion string :=
  match v with
  | JUndefined => Normal "undefined"
  | JNull => Normal "null"
  | JBool true => Normal "true"
  | JBool false => Normal "false"
  | JNum repr => Normal repr
  | JStr s => Normal s
  | JArr items =>
      join_completions
        (List.map (fun x => match x with
                            | JUndefined | JNull => Normal ""
                            | _ => ToString x
                            end) items)
  | JObj fields =>
      match own_property fields "toString" with
      | Some _ => Throw (TypeError "Cannot convert object to primitive value")
      | None => Normal "[object Object]"
      end
  | JBuiltin name =>
      Normal (if String.eqb name "__proto__" then "[object Object]"
              else "function "
                   +:+ (if String.eqb name "constructor" then "Object" else name)
                   +:+ "() { [native code] }")
  end.

(** Induction on a value through the elements of its arrays. *)
Fixpoint JsValue_array_ind (P : JsValue -> Prop)
    (Hleaf : forall v, (if v is JArr _ then false else true) = true -> P v)
    (Harray : forall items, Forall P items -> P (JArr items))
    (v : JsValue) : P v :=
  match v with
  | JArr items =>
      Harray items
        ((fix all (l : list JsValue) : Forall P l :=
            match l with
            | [] => List.Forall_nil P
            | x :: rest =>
                List.Forall_cons P x rest (JsValue_array_ind P Hleaf Harray x) (all rest)
            end) items)
  | JUndefined => Hleaf JUndefined eq_refl
  | JNull => Hleaf JNull eq_refl
  | JBool b => Hleaf (JBool b) eq_refl
  | JNum repr => Hleaf (JNum repr) eq_refl
  | JStr text => Hleaf (JStr text) eq_refl
  | JObj fields => Hleaf (JObj fields) eq_refl
  | JBuiltin name => Hleaf (JBuiltin name) eq_refl
  end.

(** [new Error(message)]: the message is [ToString] of the argument
    (no message for [undefined]); the conversion may throw. *)
Definition new_Error (message : JsValue) : Completion Thrown :=
  match message with
  | JUndefined => Normal (ThrownError (mkError "Error" ""))
  | _ => let+ text := ToString message in
         Normal (ThrownError (mkError "Error" text))
  end.

(** [throw new Error(message)]: what the statement completes with. *)
Definition throw_new_Error {A} (message : JsValue) : Completion A :=
  match new_Error message with
  | Normal error => Throw error
  | Throw t => Throw t
  end.

(** Decimal rendering of an integral number, as in a template literal. *)
Definition Z_to_string (z : Z) : string := NilZero.string_of_int (Z.to_int z).

(** ** Asynchronous computations *)

(** A file handed over by the browser: the fields the program reads. *)
Record File : Type := mkFile {
  file_name : string;
  file_type : string;   (* declared content type, [file.type] *)
  file_size : Z         (* in bytes, [file.size] *)
}.

(** [FormData]: the appended parts, in order. *)
Definition FormData : Type := list (string * File).
Definition FormData_new : FormData := [].
Definition FormData_append (fd : FormData) (name : string) (f : File) : FormData :=
  (fd ++ [(name, f)])%list.

(** An [AbortSignal] is identified by a number. *)
Definition AbortSignal : Type := nat.

(** The second argument of [fetch]. *)
Record RequestInit : Type := mkInit {
  init_method : string;
  init_body : option FormData;
  init_headers : list (string * string);
  init_signal : option AbortSignal
}.

Record Request : Type := mkRequest {
  req_url : string;
  req_init : RequestInit
}.

(** What [response.json()] settles to. *)
Inductive JsonOutcome : Type :=
| JsonRejects (t : Thrown)
| JsonResolves (v : JsValue).

Record Response : Type := mkResponse {
  status : Z;
  body_json : JsonOutcome
}.

(** [response.ok]: the status is in the range 200-299. *)
Definition ok (r : Response) : bool := (200 <=? status r) && (status r <=? 299).

(** What the network does with a request. *)
Inductive FetchOutcome : Type :=
| FetchRejects (t : Thrown)
| FetchResponds (r : Response).

(** The world one call runs in: the network's answer to each request,
    which signals their owner aborts while the request is in flight, and
    the clock's rendering of the current time. *)
Record World : Type := mkWorld {
  network : Request -> FetchOutcome;
  aborted : AbortSignal -> bool;
  now : string
}.

Inductive Event : Type :=
| EvRequest (r : Request)
| EvConsoleError (label : string) (t : Thrown)
| EvConsoleWarn (label : string) (t : Thrown).

Definition Async (A : Type) : Type := World -> list Event * Completion A.

Definition ret {A} (a : A) : Async A := fun _ => ([], Normal a).

Definition throw {A} (t : Thrown) : Async A := fun _ => ([], Throw t).

Definition bind {A B} (c : Async A) (k : A -> Async B) : Async B :=
  fun w =>
    match c w with
    | (tr, Normal a) => let '(tr', r) := k a w in ((tr ++ tr')%list, r)
    | (tr, Throw t) => (tr, Throw t)
    end.

(** [try { c } catch (e) { h e }], and [p.catch(h)] on a promise. *)
Definition try_catch {A} (c : Async A) (h : Thrown -> Async A) : Async A :=
  fun w =>
    match c w with
    | (tr, Normal a) => (tr, Normal a)
    | (tr, Throw t) => let '(tr', r) := h t w in ((tr ++ tr')%list, r)
    end.

Definition lift {A} (c : Completion A) : Async A := fun _ => ([], c).

Definition emit (e : Event) : Async unit := fun _ => ([e], Normal tt).

Notation "'let*' x := c 'in' k" := (bind c (fun x => k))
  (at level 10, x name, c at level 100, k at level 200).

Definition AbortError : Thrown :=
  ThrownError (mkError "AbortError" "The operation was aborted.").

(** [fetch(url, init)]: the request goes out; it settles as the network
    decides, unless [init] carries a signal that is aborted first, in
    which case it rejects with an [AbortError]. *)
Definition fetch (url : string) (init : RequestInit) : Async Response :=
  fun w =>
    let req := mkRequest url init in
    ([EvRequest req],
     match init_signal init with
     | Some s =>
         if aborted w s then Throw AbortError
         else match network w req with
              | FetchRejects t => Throw t
              | FetchResponds r => Normal r
              end
     | None =>
         match network w req with
         | FetchRejects t => Throw t
         | FetchResponds r => Normal r
         end
     end).

Definition Response_json (r : Response) : Async JsValue :=
  lift (match body_json r with
        | JsonRejects t => Throw t
        | JsonResolves v => Normal v
        end).

Definition console_error (label : string) (t : Thrown) : Async unit :=
  emit (EvConsoleError label t).

(** ** [src/services/plantAnalysisApi.ts] *)

Definition API_BASE_URL : string := "http://localhost:8000".

Definition analyzePlantImage (file : File) : Async JsValue :=
  try_catch
    (let formData := FormData_append FormData_new "file" file in
     let* response := fetch (API_BASE_URL +:+ "/analyze")
                        {| init_method := "POST";
                           init_body := Some formData;
                           init_headers := [("Accept", "application/json")];
                           init_signal := None |} in
     if negb (ok response) then
       let* errorData := try_catch (Response_json response)
                           (fun _ => ret (JObj [])) in
       let* detail := lift (js_get errorData "detail") in
       let* message :=
         (if ToBoolean detail then ret detail
          else let* m := lift (js_get errorData "message") in
               ret (js_or m (JStr ("HTTP error! status: "
                                     +:+ Z_to_string (status response))))) in
       let* error := lift (new_Error message) in
       throw error
     else
       let* result := Response_json response in
       ret result)
    (fun error =>
       let* _ := console_error "Error analyzing plant image:" error in
       throw error).

Definition checkApiHealth : Async bool :=
  try_catch
    (let* response := fetch (API_BASE_URL +:+ "/health")
                        {| init_method := "GET";
                           init_body := None;
                           init_headers := [];
                           init_signal := None |} in
     ret (ok response))
    (fun error =>
       let* _ := console_error "Error checking API health:" error in
       ret false).

(** ** [src/pages/PlantHealth.tsx] *)

(** The [Analysis] the page keeps: the client's result and the time it
    was obtained ([{...result, timestamp}]). *)
Record Analysis : Type := mkAnalysis {
  analysis_result : JsValue;
  timestamp : string
}.

(** The component's state hooks. *)
Record PageState : Type := mkPage {
  image : option string;
  imageFile : option File;
  analysis : option Analysis;
  loading : bool;
  error : option string
}.

Definition initialPage : PageState :=
  {| image := None; imageFile := None; analysis := None;
     loading := false; error := None |}.

Definition setError (e : option string) (st : PageState) : PageState :=
  {| image := image st; imageFile := imageFile st; analysis := analysis st;
     loading := loading st; error := e |}.

Definition setLoading (b : bool) (st : PageState) : PageState :=
  {| image := image st; imageFile := imageFile st; analysis := analysis st;
     loading := b; error := error st |}.

Definition setAnalysis (a : option Analysis) (st : PageState) : PageState :=
  {| image := image st; imageFile := imageFile st; analysis := a;
     loading := loading st; error := error st |}.

Definition setImage (i : option string) (st : PageState) : PageState :=
  {| image := i; imageFile := imageFile st; analysis := analysis st;
     loading := loading st; error := error st |}.

Definition setImageFile (f : option File) (st : PageState) : PageState :=
  {| image := image st; imageFile := f; analysis := analysis st;
     loading := loading st; error := error st |}.

(** [file.type.startsWith('image/')] *)
Definition declares_image (file : File) : bool :=
  String.prefix "image/" (file_type file).

(** [file.size > 5 * 1024 * 1024] *)
Definition oversized (file : File) : bool :=
  5 * 1024 * 1024 <? file_size file.

(** [handleImageSelect]: the new state, and the file handed to the
    [FileReader] when both checks pass. *)
Definition handleImageSelect (st : PageState) (file : File)
  : PageState * option File :=
  if negb (declares_image file) then
    (setError (Some "Please select a valid image file") st, None)
  else if oversized file then
    (setError (Some "File size must be less than 5MB") st, None)
  else
    (st, Some file).

(** [reader.onloadend] for the read started on [file].  The handler
    runs when the read has ended, whether it succeeded or failed;
    [result] is [reader.result]: the data URL, or [null] after a read
    that failed. *)
Definition onloadend (file : File) (result : option string) (st : PageState)
  : PageState :=
  setError None (setImageFile (Some file) (setImage result st)).

(** The [onClear] handler and the "analyze another" button. *)
Definition handleClear (st : PageState) : PageState :=
  setError None (setAnalysis None (setImageFile None (setImage None st))).

Definition Date_now_toLocaleString : Async string :=
  fun w => ([], Normal (now w)).

Definition handleAnalyze (st : PageState) : Async PageState :=
  match imageFile st with
  | None => ret (setError (Some "No image selected") st)
  | Some file =>
      let st := setError None (setLoading true st) in
      let* st :=
        try_catch
          (let* result := analyzePlantImage file in
           let* ts := Date_now_toLocaleString in
           ret (setAnalysis (Some (mkAnalysis result ts)) st))
          (fun err =>
             let errorMessage :=
               match err with
               | ThrownError e => err_message e
               | ThrownValue _ => "Failed to analyze image. Please try again."
               end in
             let* _ := console_error "Analysis error:" err in
             ret (setError (Some errorMessage) st)) in
      ret (setLoading false st)
  end.

(** The requests a trace contains. *)
Definition requests (tr : list Event) : list Request :=
  omap (fun e => match e with EvRequest r => Some r | _ => None end) tr.
Arguments requests : simpl never.

(** ** The [i18n] singleton ([i18next]) *)

Definition contains (s sub : string) : bool :=
  match String.index 0 sub s with
  | Some _ => true
  | None => false
  end.

(** An entry of a locale file: its text, and what the library's
    interpolation and nesting make of that text when [t] is called
    without options.  A text with neither an interpolation marker nor a
    nesting marker is delivered as it is; what becomes of a text with
    markers depends on the other entries and on the library's version,
    and is given with the entry. *)
Record Translation : Type := mkTranslation {
  raw : string;
  expanded : string
}.

(** An entry without markers. *)
Definition plain (text : string) : Translation := mkTranslation text text.

(** The prefixes of interpolation and of nesting: [{{name}}] and
    [$t(key)]. *)
Definition has_markers (text : string) : bool :=
  contains text "{{" || contains text "$t(".

Definition extendTranslation (v : Translation) : string :=
  if has_markers (raw v) then expanded v else raw v.

(** The part of the [i18next] instance the program uses: the current
    language and, per language code, the entries by dotted key
    ([months.jan]).  The locale files ([locales/en.json], [kn.json],
    [hi.json]) are data of the repository that is taken as given here;
    every entry the program asks for is a string. *)
Record I18n : Type := mkI18n {
  language : string;
  resources : gmap string (gmap string Translation)
}.

(** [fallbackLng: 'en'] in the configuration. *)
Definition fallbackLng : string := "en".

(** The language-only part of a code: what comes before its first
    separator (the library reads "_" as "-"). *)
Fixpoint language_part (code : string) : string :=
  match code with
  | EmptyString => EmptyString
  | String c rest => if Ascii.eqb c "-" || Ascii.eqb c "_" then EmptyString
                     else String c (language_part rest)
  end.

(** The codes [i18next] looks a key up under, in order: the current
    language, its language-only part, the fallback language.  This is
    the library's order for the plain codes the program uses, and for a
    code with one subtag in its canonical spelling; a tag of three
    subtags is also looked up without its last subtag, which is left
    out. *)
Definition resolve_hierarchy (lng : string) : list string :=
  [lng; language_part lng; fallbackLng].

Definition getResource (i : I18n) (code key : string) : option Translation :=
  resources i !! code ≫= (fun bundle => bundle !! key).

Fixpoint first_resource (i : I18n) (codes : list string) (key : string)
  : option Translation :=
  match codes with
  | [] => None
  | code :: rest =>
      match getResource i code key with
      | Some v => Some v
      | None => first_resource i rest key
      end
  end.

(** [String.prototype.toLowerCase], on the letters A-Z (no other
    character becomes one of the letters of "cimode"). *)
Definition lower (c : ascii) : ascii :=
  if ((65 <=? nat_of_ascii c) && (nat_of_ascii c <=? 90))%nat
  then ascii_of_nat (nat_of_ascii c + 32)
  else c.

Fixpoint toLowerCase (s : string) : string :=
  match s with
  | EmptyString => EmptyString
  | String c rest => String (lower c) (toLowerCase rest)
  end.

(** [i18n.t(key)] with the library's default options, for a key without
    markers.  In the library's built-in language "cimode" no lookup is
    made and the key is returned.  Otherwise the result is the first
    entry found along the hierarchy (an empty text counts as found),
    after interpolation and nesting, and the key itself when there is
    none. *)
Definition t (i : I18n) (key : string) : string :=
  if String.eqb (toLowerCase (language i)) "cimode" then key
  else match first_resource i (resolve_hierarchy (language i)) key with
       | Some v => extendTranslation v
       | None => key
       end.

(** ** [src/utils/dateUtils.ts] *)

(** [array[index]] for an array of strings and an integral index: the
    element, or [undefined]. *)
Definition array_get (items : list string) (index : Z) : option string :=
  if 0 <=? index then items !! Z.to_nat index else None.

(** A string-or-undefined as a value, and in a template literal. *)
Definition element (x : option string) : JsValue :=
  match x with
  | Some text => JStr text
  | None => JUndefined
  end.

Definition template_text (x : option string) : string :=
  match x with
  | Some text => text
  | None => "undefined"
  end.

Definition localeMap : list (string * JsValue) :=
  [("en", JStr "en-US"); ("hi", JStr "hi-IN"); ("kn", JStr "kn-IN")].

Definition getLocaleCode (i : I18n) : JsValue :=
  let lang := language i in
  js_or (object_get localeMap lang) (JStr "en-US").

Definition monthAbbrKeys : list string :=
  ["jan"; "feb"; "mar"; "apr"; "may"; "jun";
   "jul"; "aug"; "sep"; "oct"; "nov"; "dec"].

Definition getMonthAbbr (i : I18n) (monthIndex : Z) : JsValue :=
  let monthKeys := monthAbbrKeys in
  js_or (JStr (t i ("months."
                      +:+ template_text (array_get monthKeys monthIndex))))
        (element (array_get monthKeys monthIndex)).

Definition monthNameKeys : list string :=
  ["january"; "february"; "march"; "april"; "mayFull"; "june";
   "july"; "august"; "september"; "october"; "november"; "december"].

Definition getMonthName (i : I18n) (monthIndex : Z) : JsValue :=
  let monthKeys := monthNameKeys in
  js_or (JStr (t i ("months."
                      +:+ template_text (array_get monthKeys monthIndex))))
        (element (array_get monthKeys monthIndex)).

(** *** Number formatting by the runtime ([Intl]) *)

(** The number.  The runtime's formatter does not round the binary value
    of a number: it takes the decimal that [Number::toString] prints for
    it, the shortest one that reads back as the same number, and rounds
    that.  A finite number is therefore given here by that decimal, a
    rational [x : Q]: 1.005 stands for the number written [1.005] (whose
    binary value lies slightly below), and the number 2^60 is given as
    1152921504606847000.  For an integer of magnitude up to 2^53, and for
    a decimal literal of up to 15 significant digits, this is the value
    as written. *)

(** The conventions a locale's data gives for plain numbers: the decimal
    and grouping separators, the minus sign, and the sizes of the
    least-significant group and of the groups after it.  All three
    locales of the program use the digits 0-9. *)
Record NumberSymbols : Type := mkSymbols {
  decimal_sep : string;
  group_sep : string;
  minus_sign : string;
  primary_group : nat;
  secondary_group : nat
}.

Definition en_US : NumberSymbols :=
  {| decimal_sep := "."; group_sep := ","; minus_sign := "-";
     primary_group := 3; secondary_group := 3 |}.

(** The host: the locale data it ships for tags other than [en-US], and
    the tag of its default locale. *)
Record Host : Type := mkHost {
  cldr : string -> NumberSymbols;
  default_locale : string
}.

(** The locale a [locales] argument selects: the tag when it is a
    string; for a value that lists no tag, the host's default locale. *)
Definition requested_locale (h : Host) (locales : JsValue) : string :=
  match locales with
  | JStr tag => tag
  | _ => default_locale h
  end.

Definition symbols (h : Host) (tag : string) : NumberSymbols :=
  if String.eqb tag "en-US" then en_US else cldr h tag.

(** The fraction-digit options of [Intl.NumberFormatOptions]; the
    program sets no others on a plain number. *)
Record NumberFormatOptions : Type := mkOptions {
  minimumFractionDigits : option Z;
  maximumFractionDigits : option Z
}.

Definition RangeError (message : string) : Thrown :=
  ThrownError (mkError "RangeError" message).

(** An option that must be an integer between 0 and 100. *)
Definition DefaultNumberOption (name : string) (value : option Z)
  : Completion (option nat) :=
  match value with
  | None => Normal None
  | Some v =>
      if (v <? 0) || (100 <? v)
      then Throw (RangeError (name +:+ " value is out of range."))
      else Normal (Some (Z.to_nat v))
  end.

(** The minimum and maximum number of fraction digits in force (decimal
    style: by default none are required and at most three are shown). *)
Definition fraction_digits (options : option NumberFormatOptions)
  : Completion (nat * nat) :=
  match options with
  | None => Normal (0%nat, 3%nat)
  | Some o =>
      let+ mnfd := DefaultNumberOption "minimumFractionDigits"
                     (minimumFractionDigits o) in
      let+ mxfd := DefaultNumberOption "maximumFractionDigits"
                     (maximumFractionDigits o) in
      match mnfd, mxfd with
      | None, None => Normal (0%nat, 3%nat)
      | None, Some mx => Normal (Nat.min 0 mx, mx)
      | Some mn, None => Normal (mn, Nat.max 3 mn)
      | Some mn, Some mx =>
          if (mx <? mn)%nat
          then Throw (RangeError "maximumFractionDigits value is out of range.")
          else Normal (mn, mx)
      end
  end.

(** The decimal [|x|] rounded to [d] fraction digits, halves away from
    zero (the default rounding mode), as the integer [|x| * 10^d]
    rounds to. *)
Definition scaled_magnitude (x : Q) (d : nat) : Z :=
  (2 * Z.abs (Qnum x) * 10 ^ Z.of_nat d + Zpos (Qden x)) / (2 * Zpos (Qden x)).

Definition digit_char (n : Z) : ascii := ascii_of_nat (48 + Z.to_nat n).

(** The [d] least-significant decimal digits of [n], most significant
    first. *)
Fixpoint fixed_digits (d : nat) (n : Z) : list ascii :=
  match d with
  | O => []
  | S d' => (fixed_digits d' (n / 10) ++ [digit_char (n mod 10)])%list
  end.

(** Drop zeros from the front of a reversed digit string while more
    than [keep] digits remain. *)
Fixpoint drop_zeros (keep : nat) (rev_digits : list ascii) : list ascii :=
  match rev_digits with
  | [] => []
  | c :: rest =>
      if (keep <? length rev_digits)%nat && Ascii.eqb c "0"
      then drop_zeros keep rest
      else rev_digits
  end.

Definition fraction_part (mnfd mxfd : nat) (n : Z) : list ascii :=
  rev (drop_zeros mnfd (rev (fixed_digits mxfd (n mod 10 ^ Z.of_nat mxfd)))).

Definition integer_digits (n : Z) : list ascii :=
  list_ascii_of_string (NilZero.string_of_uint (N.to_uint (Z.to_N n))).

(** Separators put into a digit string given least-significant digit
    first: [left] digits remain in the current group, later groups have
    [size] digits. *)
Fixpoint separate (sep : list ascii) (size left : nat) (rev_digits : list ascii)
  : list ascii :=
  match rev_digits with
  | [] => []
  | c :: rest =>
      match left with
      | O => (sep ++ c :: separate sep size (size - 1) rest)%list
      | S left' => c :: separate sep size left' rest
      end
  end.

Definition grouped (sym : NumberSymbols) (digits : list ascii) : list ascii :=
  if ((0 <? primary_group sym) && (0 <? secondary_group sym))%nat then
    rev (separate (rev (list_ascii_of_string (group_sep sym)))
           (secondary_group sym) (primary_group sym) (rev digits))
  else digits.

(** A finite number, given by its decimal [x], in decimal style: the
    sign, the grouped digits of the integer part of the rounded decimal,
    and its fraction digits with trailing zeros dropped down to the
    minimum required. *)
Definition format_decimal (sym : NumberSymbols) (mnfd mxfd : nat) (x : Q)
  : string :=
  let n := scaled_magnitude x mxfd in
  let int := grouped sym (integer_digits (n / 10 ^ Z.of_nat mxfd)) in
  let frac := fraction_part mnfd mxfd n in
  (if Qnum x <? 0 then minus_sign sym else "")
  +:+ string_of_list_ascii int
  +:+ (match frac with
       | [] => ""
       | _ => decimal_sep sym +:+ string_of_list_ascii frac
       end).

(** [num.toLocaleString(locales, options)] for a finite [num], given by
    its decimal. *)
Definition Number_toLocaleString (h : Host) (num : Q) (locales : JsValue)
    (options : option NumberFormatOptions) : Completion string :=
  let+ digits := fraction_digits options in
  Normal (format_decimal (symbols h (requested_locale h locales))
            (fst digits) (snd digits) num).

(** *** The formatters *)

(** A number argument [num] is given by the decimal it prints as (see
    "Number formatting by the runtime"). *)

Definition formatNumber (h : Host) (i : I18n) (num : Q)
    (options : option NumberFormatOptions) : Completion string :=
  let locale := getLocaleCode i in
  Number_toLocaleString h num locale options.

(** [num > 0] *)
Definition positive (num : Q) : bool := 0 <? Qnum num.

Definition formatNumberWithPercent (h : Host) (i : I18n) (num : Q)
    (showPlus : option bool) : Completion string :=
  let showPlus := default false showPlus in
  let+ formatted := formatNumber h i num None in
  Normal (if showPlus && positive num
          then "+" +:+ formatted +:+ "%"
          else formatted +:+ "%").

Definition formatDecimal (h : Host) (i : I18n) (num : Q) (decimals : option Z)
  : Completion string :=
  let decimals := default 1 decimals in
  let locale := getLocaleCode i in
  Number_toLocaleString h num locale
    (Some {| minimumFractionDigits := Some decimals;
             maximumFractionDigits := Some decimals |}).

(** ** [src/i18n/config.ts] *)

(** The browser's [localStorage]: the stored items, and whether reading
    or writing currently throws (storage blocked, quota exceeded). *)
Record Storage : Type := mkStorage {
  items : gmap string string;
  getItem_throws : bool;
  setItem_throws : bool
}.

(** The globals the module tests with [typeof], in a scope where both
    tests can be evaluated: whether there is a [window], and the
    [localStorage] if there is one.  ([Globals] below adds the scope in
    which they cannot.) *)
Record Browser : Type := mkBrowser {
  has_window : bool;
  localStorage : option Storage
}.

Definition SecurityError : Thrown :=
  ThrownError (mkError "SecurityError" "The operation is insecure.").

Definition QuotaExceededError : Thrown :=
  ThrownError (mkError "QuotaExceededError" "The quota has been exceeded.").

(** [storage.getItem(key)]: the stored string, or [null]. *)
Definition getItem (s : Storage) (key : string) : Completion (option string) :=
  if getItem_throws s then Throw SecurityError else Normal (items s !! key).

Definition setItem (s : Storage) (key value : string) : Completion Storage :=
  if setItem_throws s then Throw QuotaExceededError
  else Normal {| items := <[key := value]> (items s);
                 getItem_throws := getItem_throws s;
                 setItem_throws := setItem_throws s |}.

(** [value || fallback] for a string-or-null [value]. *)
Definition string_or (value : option string) (fallback : string) : string :=
  match value with
  | Some s => if String.eqb s "" then fallback else s
  | None => fallback
  end.

(** [getSavedLanguage], in a scope where its [typeof] tests can be
    evaluated. *)
Definition getSavedLanguage (b : Browser) : string :=
  match has_window b, localStorage b with
  | true, Some storage =>
      match getItem storage "i18nextLng" with
      | Normal v => string_or v "en"
      | Throw _ => "en"
      end
  | _, _ => "en"
  end.

Definition validLanguages : list string := ["en"; "kn"; "hi"].

Definition initialLanguage (b : Browser) : string :=
  let savedLanguage := getSavedLanguage b in
  if bool_decide (savedLanguage ∈ validLanguages) then savedLanguage else "en".

(** [i18n.init] with [lng: initialLanguage]. *)
Definition init (b : Browser) (res : gmap string (gmap string Translation))
  : I18n :=
  {| language := initialLanguage b; resources := res |}.

(** The [languageChanged] listener, past its [typeof] tests: the
    browser afterwards, and what was written to the console. *)
Definition on_languageChanged (b : Browser) (lng : string)
  : Browser * list Event :=
  match has_window b, localStorage b with
  | true, Some storage =>
      match setItem storage "i18nextLng" lng with
      | Normal storage' =>
          ({| has_window := has_window b; localStorage := Some storage' |}, [])
      | Throw error =>
          (b, [EvConsoleWarn "Failed to save language preference:" error])
      end
  | _, _ => (b, [])
  end.

(** The global scope as the module finds it.  Reading the global
    [localStorage] runs an accessor of the window, and in a window whose
    user agent denies the page access to storage that accessor throws a
    [SecurityError].  The [typeof] tests of [getSavedLanguage] and of
    the listener are made before their [try] blocks are entered, so the
    exception leaves them. *)
Inductive Globals : Type :=
| StorageDenied
| Reachable (b : Browser).

(** Evaluating [typeof window === 'undefined' || typeof localStorage ===
    'undefined']. *)
Definition typeof_tests (g : Globals) : Completion Browser :=
  match g with
  | StorageDenied => Throw SecurityError
  | Reachable b => Normal b
  end.

(** Evaluating the module: [getSavedLanguage()], the check of its
    result, and [i18n.init]. *)
Definition load (g : Globals) (res : gmap string (gmap string Translation))
  : Completion I18n :=
  let+ b := typeof_tests g in
  Normal (init b res).

(** The [languageChanged] listener run in [g]. *)
Definition languageChanged (g : Globals) (lng : string)
  : Completion (Globals * list Event) :=
  let+ b := typeof_tests g in
  Normal (Reachable (fst (on_languageChanged b lng)),
          snd (on_languageChanged b lng)).

(** ** The page as a transition system *)

(** The page between two events: its state, and the files whose read
    has been started and has not ended yet.  Each handler runs to
    completion before the next event. *)
Record PageConfig : Type := mkConfig {
  page : PageState;
  reading : list File
}.

Definition initialConfig : PageConfig :=
  {| page := initialPage; reading := [] |}.

Inductive page_step : PageConfig -> list Event -> PageConfig -> Prop :=
| step_select c file :
    page_step c []
      {| page := fst (handleImageSelect (page c) file);
         reading := (reading c
                       ++ option_list (snd (handleImageSelect (page c) file)))%list |}
| step_loadend c before file after result :
    reading c = (before ++ file :: after)%list ->
    page_step c []
      {| page := onloadend file result (page c);
         reading := (before ++ after)%list |}
| step_clear c :
    page_step c [] {| page := handleClear (page c); reading := reading c |}
| step_analyze c w tr st' :
    handleAnalyze (page c) w = (tr, Normal st') ->
    page_step c tr {| page := st'; reading := reading c |}.

Inductive page_run : PageConfig -> list Event -> PageConfig -> Prop :=
| run_done c : page_run c [] c
| run_step c tr c' tr' c'' :
    page_step c tr c' -> page_run c' tr' c'' ->
    page_run c (tr ++ tr')%list c''.

(** ** Vocabulary of the properties *)

(** The one request [analyzePlantImage] builds for [file]. *)
Definition analyze_request (file : File) : Request :=
  {| req_url := "http://localhost:8000/analyze";
     req_init := {| init_method := "POST";
                    init_body := Some [("file", file)];
                    init_headers := [("Accept", "application/json")];
                    init_signal := None |} |}.

(** The files a request uploads. *)
Definition uploaded (r : Request) : list File :=
  match init_body (req_init r) with
  | Some parts => List.map snd parts
  | None => []
  end.

(** Both checks of the page on a selected file. *)
Definition passes_checks (file : File) : bool :=
  declares_image file && negb (oversized file).

(** Only checked files are held: the file kept for analysis, if any, and
    the files being read. *)
Definition holds_checked_files (c : PageConfig) : Prop :=
  (forall f, imageFile (page c) = Some f -> passes_checks f = true)
  /\ Forall (fun f => passes_checks f = true) (reading c).

(** The error body the service documents ([interface ApiError]). *)
Record ApiError : Type := mkApiError {
  detail : option string;
  message : option string
}.

Definition string_field (fields : list (string * JsValue)) (key : string)
  : option (option string) :=
  match own_property fields key with
  | None => Some None
  | Some (JStr s) => Some (Some s)
  | Some _ => None
  end.

(** A parsed body read at type [ApiError]: an object whose [detail] and
    [message], where present, are strings. *)
Definition as_ApiError (v : JsValue) : option ApiError :=
  match v with
  | JObj fields =>
      match string_field fields "detail", string_field fields "message" with
      | Some d, Some m => Some (mkApiError d m)
      | _, _ => None
      end
  | _ => None
  end.

(** The error body of a response: what its JSON parses to, and the empty
    object when it does not parse. *)
Definition error_body (r : Response) : option ApiError :=
  match body_json r with
  | JsonRejects _ => Some (mkApiError None None)
  | JsonResolves v => as_ApiError v
  end.

(** A field is available when it is present and not empty. *)
Definition available (field : option string) : option string :=
  match field with
  | Some s => if String.eqb s "" then None else Some s
  | None => None
  end.

(** The order of preference of the specification: [detail], then
    [message], then a message made from the status code. *)
Definition resolved_message (e : ApiError) (code : Z) : string :=
  match available (detail e), available (message e) with
  | Some d, _ => d
  | None, Some m => m
  | None, None => "HTTP error! status: " +:+ Z_to_string code
  end.

Definition is_digit (c : ascii) : bool :=
  (48 <=? nat_of_ascii c)%nat && (nat_of_ascii c <=? 57)%nat.

Definition all_digits (s : string) : bool :=
  forallb is_digit (list_ascii_of_string s).




(** The conventions in force for the current language. *)
Definition current_symbols (h : Host) (i : I18n) : NumberSymbols :=
  symbols h (requested_locale h (getLocaleCode i)).

Definition digit_value (c : ascii) : Z := Z.of_nat (nat_of_ascii c) - 48.

Fixpoint digits_value_from (acc : Z) (digits : list ascii) : Z :=
  match digits with
  | [] => acc
  | c :: rest => digits_value_from (10 * acc + digit_value c) rest
  end.

(** The number a string of decimal digits denotes. *)
Definition digits_value (digits : list ascii) : Z := digits_value_from 0 digits.

(** The decimal with coefficient [m] and [k] fraction digits:
    [m / 10^k]. *)
Definition decimal (m : Z) (k : nat) : Q := m # Z.to_pos (10 ^ Z.of_nat k).

(** ** Sample inputs *)

(** A host whose default locale is [en-US] and whose other locales group
    digits by three, then by two. *)
Definition sample_host : Host :=
  {| cldr := fun _ => {| decimal_sep := "."; group_sep := ",";
                         minus_sign := "-";
                         primary_group := 3; secondary_group := 2 |};
     default_locale := "en-US" |}.

Definition english : I18n := {| language := "en"; resources := ∅ |}.

(** A browser whose storage holds [stored] and refuses writes when
    [full]. *)
Definition browser_with (stored : gmap string string) (full : bool) : Browser :=
  {| has_window := true;
     localStorage := Some {| items := stored;
                             getItem_throws := false;
                             setItem_throws := full |} |}.

Definition leaf_photo : File := mkFile "leaf.jpg" "image/jpeg" 204800.

Definition notes_txt : File := mkFile "notes.txt" "text/plain" 12.

(** A world whose network gives the same answer to every request. *)
Definition world_answering (answer : FetchOutcome) (cancelled : bool) : World :=
  {| network := fun _ => answer;
     aborted := fun _ => cancelled;
     now := "1/15/2025, 10:00:00 AM" |}.

Definition responds (code : Z) (body : JsonOutcome) : FetchOutcome :=
  FetchResponds (mkResponse code body).

Definition offline : World :=
  world_answering (FetchRejects (TypeError "Failed to fetch")) false.

Definition blight_report : JsValue :=
  JObj [("crop_type", JStr "Tomato");
        ("disease_status", JStr "Early blight");
        ("severity_level", JNum "35");
        ("confidence", JNum "0.93");
        ("recommendations", JArr [JStr "Remove affected leaves"])].

Definition report_without_confidence : JsValue :=
  JObj [("crop_type", JStr "Tomato");
        ("disease_status", JStr "Early blight");
        ("severity_level", JNum "35");
        ("recommendations", JArr [JStr "Remove affected leaves"])].

Definition not_json : JsonOutcome :=
  JsonRejects (ThrownError (mkError "SyntaxError"
                              "Unexpected token '<' is not valid JSON")).

Definition model_unavailable : JsonOutcome :=
  JsonResolves (JObj [("detail", JStr "model unavailable")]).

(** ** Further functions of the sources *)

(** *** [src/services/plantAnalysisApi.ts]: the two read-only calls *)

Definition getDatasetStats : Async JsValue :=
  try_catch
    (let* response := fetch (API_BASE_URL +:+ "/dataset-stats")
                        {| init_method := "GET";
                           init_body := None;
                           init_headers := [];
                           init_signal := None |} in
     if negb (ok response) then
       let* error := lift (new_Error (JStr ("HTTP error! status: "
                                              +:+ Z_to_string (status response)))) in
       throw error
     else
       let* data := Response_json response in
       ret data)
    (fun error =>
       let* _ := console_error "Error fetching dataset stats:" error in
       throw error).

Definition getModelInfo : Async JsValue :=
  try_catch
    (let* response := fetch (API_BASE_URL +:+ "/model-info")
                        {| init_method := "GET";
                           init_body := None;
                           init_headers := [];
                           init_signal := None |} in
     if negb (ok response) then
       let* error := lift (new_Error (JStr ("HTTP error! status: "
                                              +:+ Z_to_string (status response)))) in
       throw error
     else
       let* data := Response_json response in
       ret data)
    (fun error =>
       let* _ := console_error "Error fetching model info:" error in
       throw error).

(** *** Numbers that may be [NaN] *)

(** A number as a page receives it from an input field or computes with
    it: a finite value, or [NaN] (the infinities are left out).  Every
    comparison with [NaN] is false. *)
Inductive JsNumber : Type :=
| Finite (q : Q)
| NaN.

Definition num_lt (a b : JsNumber) : bool :=
  match a, b with
  | Finite x, Finite y => negb (Qle_bool y x)
  | _, _ => false
  end.

Definition num_le (a b : JsNumber) : bool :=
  match a, b with
  | Finite x, Finite y => Qle_bool x y
  | _, _ => false
  end.

Definition num_gt (a b : JsNumber) : bool := num_lt b a.

Definition num_ge (a b : JsNumber) : bool := num_le b a.

(** [a === b] on numbers. *)
Definition num_eq (a b : JsNumber) : bool :=
  match a, b with
  | Finite x, Finite y => Qeq_bool x y
  | _, _ => false
  end.

(** *** [src/pages/PlantHealth.tsx]: the severity scale *)

Definition getSeverityColor (severity : JsNumber) : string :=
  if num_eq severity (Finite 0) then "text-green-600"
  else if num_le severity (Finite 20) then "text-yellow-600"
  else if num_le severity (Finite 40) then "text-orange-600"
  else "text-red-600".

Definition getSeverityLabel (severity : JsNumber) : string :=
  if num_eq severity (Finite 0) then "Healthy"
  else if num_le severity (Finite 20) then "Mild"
  else if num_le severity (Finite 40) then "Moderate"
  else if num_le severity (Finite 60) then "Severe"
  else if num_le severity (Finite 80) then "Very Severe"
  else "Critical".

(** *** [src/components/ImageUpload.tsx] *)

(** What [onImageSelect] is on the plant health page: its
    [handleImageSelect], as a step of the page. *)
Definition page_select (file : File) (c : PageConfig) : PageConfig :=
  {| page := fst (handleImageSelect (page c) file);
     reading := (reading c
                   ++ option_list (snd (handleImageSelect (page c) file)))%list |}.

(** [handleFileChange]: the first file of the input, if any, is handed
    to [onImageSelect]. *)
Definition handleFileChange {S : Type} (onImageSelect : File -> S -> S)
    (files : list File) (st : S) : S :=
  match files with
  | file :: _ => onImageSelect file st
  | [] => st
  end.

(** [handleDrop]: dragging ends, and the first dropped file is handed to
    [onImageSelect] when it declares an image content type. *)
Definition handleDrop {S : Type} (onImageSelect : File -> S -> S)
    (files : list File) (isDragging : bool) (st : S) : bool * S :=
  (false,
   match files with
   | file :: _ => if declares_image file then onImageSelect file st else st
   | [] => st
   end).

(** *** [src/pages/Dashboard.tsx]: month labels of the chart *)

Definition chartMonths : list string :=
  ["Jan"; "Feb"; "Mar"; "Apr"; "May"; "Jun";
   "Jul"; "Aug"; "Sep"; "Oct"; "Nov"; "Dec"].

(** [array.indexOf(x)]: the first position of [x], or -1. *)
Fixpoint indexOf (items : list string) (x : string) : Z :=
  match items with
  | [] => -1
  | y :: rest =>
      if String.eqb y x then 0
      else let k := indexOf rest x in
           if k =? -1 then -1 else k + 1
  end.

(** The [month] of a chart item in [localizedChartData]. *)
Definition localizedMonth (i : I18n) (month : string) : JsValue :=
  let monthIndex := indexOf chartMonths month in
  if negb (monthIndex =? -1) then getMonthAbbr i monthIndex else JStr month.

(** *** [src/pages/SoilAnalysis.tsx] *)

Definition getRecommendation (key : string) (value : JsNumber) : JsValue :=
  let recommendations :=
    [("ph", JStr (if num_lt value (Finite 6) then "Add lime to increase pH"
                  else if num_gt value (Finite (15 # 2))
                       then "Add sulfur to decrease pH"
                       else "pH level is optimal"));
     ("nitrogen", JStr (if num_lt value (Finite 40)
                        then "Apply nitrogen-rich fertilizer"
                        else "Nitrogen level is good"));
     ("phosphorus", JStr (if num_lt value (Finite 25)
                          then "Add phosphate fertilizer"
                          else "Phosphorus level is adequate"));
     ("potassium", JStr (if num_lt value (Finite 50)
                         then "Apply potassium fertilizer"
                         else "Potassium level is healthy"));
     ("moisture", JStr (if num_lt value (Finite 30) then "Increase irrigation"
                        else if num_gt value (Finite 70) then "Reduce watering"
                             else "Moisture is optimal"))] in
  js_or (object_get recommendations key) (JStr "Level is normal").

(** The [isOptimal] of a result row. *)
Definition isOptimal (key : string) (value : JsNumber) : bool :=
  (String.eqb key "ph" && num_ge value (Finite 6)
     && num_le value (Finite (15 # 2)))
  || (String.eqb key "nitrogen" && num_ge value (Finite 40))
  || (String.eqb key "phosphorus" && num_ge value (Finite 25))
  || (String.eqb key "potassium" && num_ge value (Finite 50))
  || (String.eqb key "moisture" && num_ge value (Finite 30)
        && num_le value (Finite 70)).

(** The texts [getRecommendation] has for a level that needs nothing. *)
Definition reassuring : list JsValue :=
  [JStr "pH level is optimal"; JStr "Nitrogen level is good";
   JStr "Phosphorus level is adequate"; JStr "Potassium level is healthy";
   JStr "Moisture is optimal"].

Definition nutrientKeys : list string :=
  ["ph"; "nitrogen"; "phosphorus"; "potassium"; "moisture"].

(** *** [src/pages/Auth.tsx] and [src/pages/DashboardLayout.tsx] *)

(** [storage.removeItem(key)]; it throws when the storage cannot be
    read at all. *)
Definition removeItem (s : Storage) (key : string) : Completion Storage :=
  if getItem_throws s then Throw SecurityError
  else Normal {| items := delete key (items s);
                 getItem_throws := getItem_throws s;
                 setItem_throws := setItem_throws s |}.

(** [!value] for a string-or-null [value]. *)
Definition not_string (value : option string) : bool :=
  match value with
  | Some s => String.eqb s ""
  | None => true
  end.

(** [handleSubmit] of the sign-in form: the storage afterwards and the
    route navigated to. *)
Definition handleSubmit (selectedRole : string) (s : Storage)
  : Completion (Storage * string) :=
  let+ s := setItem s "userRole" selectedRole in
  let+ s := setItem s "isAuthenticated" "true" in
  Normal (s, "/dashboard").

(** The effect of [DashboardLayout]: the route it navigates to, if any. *)
Definition authGuard (s : Storage) : Completion (option string) :=
  let+ isAuthenticated := getItem s "isAuthenticated" in
  Normal (if not_string isAuthenticated then Some "/auth" else None).

Definition handleLogout (s : Storage) : Completion Storage :=
  let+ s := removeItem s "isAuthenticated" in
  removeItem s "userRole".

(** *** Further sample inputs *)

(** The body a FastAPI service sends with status 422. *)
Definition validation_errors : JsonOutcome :=
  JsonResolves (JObj [("detail", JArr [JObj [("msg", JStr "field required")]])]).

(** *** Vocabulary of the further properties *)

(** What the page shows for a thrown value. *)
Definition shown_message (t : Thrown) : string :=
  match t with
  | ThrownError e => err_message e
  | ThrownValue _ => "Failed to analyze image. Please try again."
  end.

(** * Properties *)

(** ** The remote analysis client *)

Lemma join_completions_throws (part : Completion string)
    (rest : list (Completion string)) (t : Thrown) :
  join_completions (part :: rest) = Throw t ->
  part = Throw t \/ join_completions rest = Throw t.
Proof.
  cbn [join_completions]. destruct part as [first | t']; cbn.
  - destruct rest as [| part' rest]; [discriminate |].
    destruct (join_completions (part' :: rest)) as [others | t'']; cbn;
      [discriminate |].
    intros [= <-]. now right.
  - intros [= <-]. now left.
Qed.

(** [ToString] throws nothing but its [TypeError]. *)
Lemma ToString_throws (v : JsValue) (t : Thrown) :
  ToString v = Throw t ->
  t = TypeError "Cannot convert object to primitive value".
Proof.
  revert t. induction v as [v Hleaf | items IH] using JsValue_array_ind;
    intros t.
  - destruct v as [| | [|] | repr | s | items | fields | name];
      cbn [ToString]; try discriminate.
    destruct (own_property fields "toString"); [| discriminate].
    now intros [= <-].
  - cbn [ToString]. induction IH as [| x rest Hx _ IHrest]; [discriminate |].
    cbn [List.map]. intros [Hthrow | Hthrow]%join_completions_throws.
    + destruct x; try discriminate; exact (Hx _ Hthrow).
    + exact (IHrest Hthrow).
Qed.

(** [new Error(x)] gives an [Error], or throws one. *)
Lemma new_Error_error (v : JsValue) :
  exists e, new_Error v = Normal (ThrownError e)
            \/ new_Error v = Throw (ThrownError e).
Proof.
  unfold new_Error.
  destruct (ToString v) as [text | t] eqn:Htext.
  - destruct v; cbn; rewrite ?Htext; cbn; eexists; left; reflexivity.
  - rewrite (ToString_throws v t Htext).
    destruct v; try discriminate; cbn; eexists; right; reflexivity.
Qed.

Section Client.

Variable file : File.
Variable w : World.

Let label := "Error analyzing plant image:".

(** Run the call up to the network's answer. *)
Ltac to_network :=
  unfold analyzePlantImage, try_catch, bind, fetch; cbn;
  match goal with
  | |- context [network ?w0 (mkRequest ?u ?i)] =>
      change (mkRequest u i) with (analyze_request file)
  end.

(** The network fails: the exception is logged and thrown again. *)
Lemma analyze_transport_failure (e : Thrown) :
  network w (analyze_request file) = FetchRejects e ->
  analyzePlantImage file w =
    ([EvRequest (analyze_request file); EvConsoleError label e], Throw e).
Proof.
  intros Hnet.
  to_network. rewrite Hnet. reflexivity.
Qed.

(** A success status: whatever the body parses to is the result. *)
Lemma analyze_success (r : Response) (v : JsValue) :
  network w (analyze_request file) = FetchResponds r ->
  ok r = true ->
  body_json r = JsonResolves v ->
  analyzePlantImage file w = ([EvRequest (analyze_request file)], Normal v).
Proof.
  intros Hnet Hok Hbody.
  to_network. rewrite Hnet, Hok; cbn.
  unfold Response_json, lift. rewrite Hbody. reflexivity.
Qed.

(** A success status with a body that is not JSON: the parser's
    exception is logged and thrown again. *)
Lemma analyze_success_unparsable (r : Response) (e : Thrown) :
  network w (analyze_request file) = FetchResponds r ->
  ok r = true ->
  body_json r = JsonRejects e ->
  analyzePlantImage file w =
    ([EvRequest (analyze_request file); EvConsoleError label e], Throw e).
Proof.
  intros Hnet Hok Hbody.
  to_network. rewrite Hnet, Hok; cbn.
  unfold Response_json, lift. rewrite Hbody. reflexivity.
Qed.

(** Any other status: an [Error] instance is logged and thrown. *)
Lemma analyze_http_failure (r : Response) :
  network w (analyze_request file) = FetchResponds r ->
  ok r = false ->
  exists e : JsError,
    analyzePlantImage file w =
      ([EvRequest (analyze_request file); EvConsoleError label (ThrownError e)],
       Throw (ThrownError e)).
Proof.
  intros Hnet Hok.
  to_network. rewrite Hnet, Hok; cbn.
  unfold Response_json, lift.
  destruct (body_json r) as [e | v]; cbn.
  - eexists; reflexivity.
  - destruct v; cbn -[new_Error]; try (eexists; reflexivity).
    destruct (ToBoolean (object_get fields "detail")); cbn -[new_Error];
      match goal with
      | |- context [new_Error ?x] =>
          destruct (new_Error_error x) as [e [-> | ->]]
      end; cbn; eexists; reflexivity.
Qed.

(** With an error body of the documented shape, the message is the one
    the order of preference selects. *)
Lemma analyze_http_failure_message (r : Response) (body : ApiError) :
  network w (analyze_request file) = FetchResponds r ->
  ok r = false ->
  error_body r = Some body ->
  analyzePlantImage file w =
    let e := ThrownError (mkError "Error" (resolved_message body (status r))) in
    ([EvRequest (analyze_request file); EvConsoleError label e], Throw e).
Proof.
  intros Hnet Hok Hbody.
  to_network. rewrite Hnet, Hok; cbn.
  unfold Response_json, lift, error_body in *.
  destruct (body_json r) as [e | v]; cbn.
  - injection Hbody as <-. reflexivity.
  - destruct v; try discriminate. cbn in Hbody.
    unfold string_field in Hbody. cbn. unfold object_get.
    destruct (own_property fields "detail") as [[]|];
      destruct (own_property fields "message") as [[]|];
      try discriminate; injection Hbody as <-;
      unfold resolved_message, js_or; cbn;
      repeat match goal with
             | |- context [String.eqb ?s ""] => destruct (String.eqb s ""); cbn
             end; reflexivity.
Qed.

End Client.

Lemma analyze_requests (file : File) (w : World) :
  requests (fst (analyzePlantImage file w)) = [analyze_request file].
Proof.
  destruct (network w (analyze_request file)) as [e | r] eqn:Hnet.
  - rewrite (analyze_transport_failure file w e Hnet). reflexivity.
  - destruct (ok r) eqn:Hok.
    + destruct (body_json r) as [e | v] eqn:Hbody.
      * rewrite (analyze_success_unparsable file w r e Hnet Hok Hbody).
        reflexivity.
      * rewrite (analyze_success file w r v Hnet Hok Hbody). reflexivity.
    + destruct (analyze_http_failure file w r Hnet Hok) as [e ->].
      reflexivity.
Qed.

(** The page's handler turns every outcome of the client into state:
    it completes normally, whatever the network does. *)
Lemma handleAnalyze_total (st : PageState) (w : World) :
  exists st', snd (handleAnalyze st w) = Normal st'.
Proof.
  unfold handleAnalyze.
  destruct (imageFile st) as [f |]; [| eexists; reflexivity].
  unfold bind, try_catch.
  destruct (analyzePlantImage f w) as [tr [v | e]]; cbn; eexists; reflexivity.
Qed.

(** What the page shows when the client throws an [Error]: its message. *)
Lemma handleAnalyze_shows_message (st : PageState) (w : World) (f : File)
    (tr : list Event) (e : JsError) :
  imageFile st = Some f ->
  analyzePlantImage f w = (tr, Throw (ThrownError e)) ->
  exists st', snd (handleAnalyze st w) = Normal st'
              /\ error st' = Some (err_message e) /\ analysis st' = analysis st.
Proof.
  intros Hfile Hrun. unfold handleAnalyze, bind, try_catch.
  rewrite Hfile, Hrun; cbn. eexists; repeat split; reflexivity.
Qed.

(** The health check collapses every outcome to a boolean: [true] for a
    status in 200-299, [false] for any other status and for a transport
    failure. *)
Lemma checkApiHealth_collapses (w : World) :
  snd (checkApiHealth w)
  = Normal match network w (mkRequest "http://localhost:8000/health"
                              (mkInit "GET" None [] None)) with
           | FetchResponds r => ok r
           | FetchRejects _ => false
           end.
Proof.
  unfold checkApiHealth, try_catch, bind, fetch; cbn.
  change (API_BASE_URL +:+ "/health") with "http://localhost:8000/health".
  match goal with
  | |- context [network w ?req] => destruct (network w req) as [e | r]
  end; reflexivity.
Qed.

(** C1 (as the code has it).  Every call of [analyzePlantImage] issues
    exactly one request and settles in one of four ways: when the
    transport fails it throws the transport's own exception, unchanged;
    on a success status it returns what the body parses to, or throws
    the parser's exception when the body is not JSON; on any other
    status it throws an [Error] instance.  Failures are thus thrown to
    the caller, not returned as values; the caller on the page,
    [handleAnalyze], catches all of them and always completes normally. *)
Theorem analyzePlantImage_settles (file : File) (w : World) :
  requests (fst (analyzePlantImage file w)) = [analyze_request file]
  /\ match network w (analyze_request file) with
     | FetchRejects e => snd (analyzePlantImage file w) = Throw e
     | FetchResponds r =>
         if ok r then
           match body_json r with
           | JsonResolves v => snd (analyzePlantImage file w) = Normal v
           | JsonRejects e => snd (analyzePlantImage file w) = Throw e
           end
         else exists e, snd (analyzePlantImage file w) = Throw (ThrownError e)
     end
  /\ forall st, exists st', snd (handleAnalyze st w) = Normal st'.
Proof.
  split; [apply analyze_requests |].
  split; [| intros st; apply handleAnalyze_total].
  destruct (network w (analyze_request file)) as [e | r] eqn:Hnet.
  - now rewrite (analyze_transport_failure file w e Hnet).
  - destruct (ok r) eqn:Hok.
    + destruct (body_json r) as [e | v] eqn:Hbody.
      * now rewrite (analyze_success_unparsable file w r e Hnet Hok Hbody).
      * now rewrite (analyze_success file w r v Hnet Hok Hbody).
    + destruct (analyze_http_failure file w r Hnet Hok) as [e ->].
      now exists e.
Qed.

(** C1 fails as stated: with the network unreachable the call does not
    resolve to a value; the raw transport exception reaches the caller. *)
Lemma transport_exception_propagates :
  snd (analyzePlantImage leaf_photo offline) = Throw (TypeError "Failed to fetch")
  /\ ~ (exists v, snd (analyzePlantImage leaf_photo offline) = Normal v).
Proof.
  split; [reflexivity |]. intros [v Hv]. discriminate Hv.
Qed.

(** C3 (as the code has it).  On a success status the client does not
    inspect the body: whatever value it parses to is returned as the
    result, unchanged, and when it does not parse the parser's exception
    is logged and thrown to the caller. *)
Theorem success_body_returned_unchecked (file : File) (w : World) (r : Response) :
  network w (analyze_request file) = FetchResponds r ->
  ok r = true ->
  match body_json r with
  | JsonResolves v =>
      analyzePlantImage file w = ([EvRequest (analyze_request file)], Normal v)
  | JsonRejects e =>
      analyzePlantImage file w =
        ([EvRequest (analyze_request file);
          EvConsoleError "Error analyzing plant image:" e], Throw e)
  end.
Proof.
  intros Hnet Hok. destruct (body_json r) as [e | v] eqn:Hbody.
  - exact (analyze_success_unparsable file w r e Hnet Hok Hbody).
  - exact (analyze_success file w r v Hnet Hok Hbody).
Qed.

Lemma success_body_returned_unchecked_witness :
  analyzePlantImage leaf_photo
    (world_answering (responds 200 (JsonResolves blight_report)) false)
  = ([EvRequest (analyze_request leaf_photo)], Normal blight_report).
Proof.
  exact (success_body_returned_unchecked leaf_photo
           (world_answering (responds 200 (JsonResolves blight_report)) false)
           (mkResponse 200 (JsonResolves blight_report)) eq_refl eq_refl).
Defined.

(** C3 fails as stated: a 200 response whose body lacks [confidence] is
    returned to the caller as the result. *)
Lemma malformed_body_is_returned :
  own_property
    (match report_without_confidence with JObj fields => fields | _ => [] end)
    "confidence" = None
  /\ snd (analyzePlantImage leaf_photo
            (world_answering
               (responds 200 (JsonResolves report_without_confidence)) false))
     = Normal report_without_confidence.
Proof. split; reflexivity. Qed.

Lemma available_nonempty (field : option string) (s : string) :
  available field = Some s -> s <> "".
Proof.
  destruct field as [s' |]; cbn; [| discriminate].
  destruct (String.eqb s' "") eqn:Hempty; [discriminate |].
  intros [= <-]. now apply String.eqb_neq.
Qed.

Lemma resolved_message_nonempty (body : ApiError) (code : Z) :
  resolved_message body code <> "".
Proof.
  unfold resolved_message.
  destruct (available (detail body)) as [d |] eqn:Hd.
  - exact (available_nonempty _ _ Hd).
  - destruct (available (message body)) as [m |] eqn:Hm.
    + exact (available_nonempty _ _ Hm).
    + discriminate.
Qed.

(** C4 (as the code has it).  On a status outside 200-299, with an
    error body of the shape the code declares ([ApiError]: an object
    whose [detail] and [message], where present, are strings) or a body
    that does not parse, the call throws an [Error] whose message is
    resolved in the order of preference: the [detail] field when
    available, otherwise the [message] field, otherwise "HTTP error!
    status: " followed by the status code.  That message is never
    empty. *)
Theorem http_failure_message_resolved (file : File) (w : World) (r : Response)
    (body : ApiError) :
  network w (analyze_request file) = FetchResponds r ->
  ok r = false ->
  error_body r = Some body ->
  (exists msg,
      snd (analyzePlantImage file w) = Throw (ThrownError (mkError "Error" msg))
      /\ msg <> ""
      /\ msg = match available (detail body), available (message body) with
               | Some d, _ => d
               | None, Some m => m
               | None, None => "HTTP error! status: " +:+ Z_to_string (status r)
               end).
Proof.
  intros Hnet Hok Hbody.
  exists (resolved_message body (status r)).
  rewrite (analyze_http_failure_message file w r body Hnet Hok Hbody).
  split; [reflexivity |].
  split; [apply resolved_message_nonempty | reflexivity].
Qed.

(** The two cases the specification singles out: status 500 with the
    body [{"detail":"model unavailable"}] gives exactly that message, and
    status 500 with a body that does not parse gives a message that
    contains 500. *)
Lemma http_failure_message_resolved_witness :
  (exists msg,
      snd (analyzePlantImage leaf_photo
             (world_answering (responds 500 model_unavailable) false))
      = Throw (ThrownError (mkError "Error" msg))
      /\ msg <> "" /\ msg = "model unavailable")
  /\ (exists msg,
         snd (analyzePlantImage leaf_photo
                (world_answering (responds 500 not_json) false))
         = Throw (ThrownError (mkError "Error" msg))
         /\ msg <> "" /\ msg = "HTTP error! status: 500")
  /\ contains "HTTP error! status: 500" "500" = true.
Proof.
  split; [| split].
  - exact (http_failure_message_resolved leaf_photo
             (world_answering (responds 500 model_unavailable) false)
             (mkResponse 500 model_unavailable)
             (mkApiError (Some "model unavailable") None)
             eq_refl eq_refl eq_refl).
  - exact (http_failure_message_resolved leaf_photo
             (world_answering (responds 500 not_json) false)
             (mkResponse 500 not_json)
             (mkApiError None None)
             eq_refl eq_refl eq_refl).
  - reflexivity.
Defined.

(** C4 fails as stated: with status 500 and the body [{"detail":[]}]
    the list is truthy, so it is the value chosen, and its text is
    empty: the [Error] thrown has the empty message. *)
Lemma empty_detail_gives_empty_message :
  ok (mkResponse 500 (JsonResolves (JObj [("detail", JArr [])]))) = false
  /\ snd (analyzePlantImage leaf_photo
            (world_answering
               (responds 500 (JsonResolves (JObj [("detail", JArr [])])))
               false))
     = Throw (ThrownError (mkError "Error" "")).
Proof. split; reflexivity. Qed.

(** C5 (as the code has it).  The client takes no cancellation signal:
    the one request it issues carries none, so the outcome of a call does
    not depend on what its caller aborts; it is the outcome of the
    network exchange. *)
Theorem analyzePlantImage_ignores_cancellation (file : File)
    (net : Request -> FetchOutcome) (ab ab' : AbortSignal -> bool)
    (clock : string) :
  analyzePlantImage file (mkWorld net ab clock)
  = analyzePlantImage file (mkWorld net ab' clock)
  /\ Forall (fun r => init_signal (req_init r) = None)
       (requests (fst (analyzePlantImage file (mkWorld net ab clock)))).
Proof.
  split.
  - unfold analyzePlantImage, try_catch, bind, fetch; cbn.
    destruct (net _) as [e | r]; [reflexivity |].
    destruct (ok r); cbn; unfold Response_json, lift;
      destruct (body_json r) as [e | v]; cbn; try reflexivity.
    destruct v; cbn -[new_Error]; try reflexivity.
    destruct (ToBoolean _); cbn -[new_Error];
      match goal with
      | |- context [new_Error ?x] => destruct (new_Error x)
      end; reflexivity.
  - rewrite analyze_requests. repeat constructor.
Qed.

(** C5 fails as stated: in a world where the caller has aborted every
    signal it holds before the response arrives, the call still resolves
    with the response's result, and not with a cancellation. *)
Lemma cancelled_call_still_succeeds :
  aborted (world_answering (responds 200 (JsonResolves blight_report)) true) 0%nat
  = true
  /\ snd (analyzePlantImage leaf_photo
            (world_answering (responds 200 (JsonResolves blight_report)) true))
     = Normal blight_report
  /\ snd (analyzePlantImage leaf_photo
            (world_answering (responds 200 (JsonResolves blight_report)) true))
     <> Throw AbortError.
Proof. split; [reflexivity | split; [reflexivity | discriminate]]. Qed.

(** ** The page: selecting and analysing a file *)

Lemma handleImageSelect_rejects (st : PageState) (file : File) :
  passes_checks file = false ->
  handleImageSelect st file
  = (setError (Some (if declares_image file
                     then "File size must be less than 5MB"
                     else "Please select a valid image file")) st, None).
Proof.
  unfold passes_checks, handleImageSelect. intros Hbad.
  destruct (declares_image file); cbn in *; [| reflexivity].
  destruct (oversized file); [reflexivity | discriminate].
Qed.

Lemma handleImageSelect_reads (st : PageState) (file f : File) :
  snd (handleImageSelect st file) = Some f ->
  f = file /\ passes_checks file = true
  /\ fst (handleImageSelect st file) = st.
Proof.
  unfold passes_checks, handleImageSelect.
  destruct (declares_image file); cbn; [| discriminate].
  destruct (oversized file); cbn; [discriminate |].
  intros [= <-]. auto.
Qed.

Lemma handleImageSelect_keeps_file (st : PageState) (file : File) :
  imageFile (fst (handleImageSelect st file)) = imageFile st.
Proof.
  unfold handleImageSelect.
  destruct (declares_image file); cbn; [| reflexivity].
  destruct (oversized file); reflexivity.
Qed.

Lemma requests_app (tr tr' : list Event) :
  requests (tr ++ tr') = (requests tr ++ requests tr')%list.
Proof. apply omap_app. Qed.

(** [handleAnalyze] uploads the file the page holds, and nothing when it
    holds none; it leaves that file in place. *)
Lemma handleAnalyze_requests (st : PageState) (w : World) :
  requests (fst (handleAnalyze st w))
  = match imageFile st with
    | Some f => [analyze_request f]
    | None => []
    end.
Proof.
  unfold handleAnalyze. destruct (imageFile st) as [f |]; [| reflexivity].
  unfold bind, try_catch. pose proof (analyze_requests f w) as Hreq.
  destruct (analyzePlantImage f w) as [tr [v | e]];
    unfold fst in Hreq; cbn; rewrite !requests_app, Hreq; reflexivity.
Qed.

Lemma handleAnalyze_keeps_file (st st' : PageState) (w : World) :
  snd (handleAnalyze st w) = Normal st' -> imageFile st' = imageFile st.
Proof.
  unfold handleAnalyze. destruct (imageFile st) as [f |] eqn:Hfile.
  - unfold bind, try_catch.
    destruct (analyzePlantImage f w) as [tr [v | e]]; cbn;
      intros [= <-]; cbn; exact Hfile.
  - cbn. intros [= <-]. exact Hfile.
Qed.

Lemma page_step_holds_checked (c c' : PageConfig) (tr : list Event) :
  page_step c tr c' -> holds_checked_files c -> holds_checked_files c'.
Proof.
  intros Hstep [Hfile Hreading].
  destruct Hstep as [c file | c before file after result Hsplit | c
                    | c w tr st' Hrun]; split; cbn.
  - rewrite handleImageSelect_keeps_file. exact Hfile.
  - apply Forall_app. split; [exact Hreading |].
    destruct (snd (handleImageSelect (page c) file)) as [f |] eqn:Hsel; cbn;
      [| constructor].
    apply handleImageSelect_reads in Hsel as (-> & Hok & _).
    repeat constructor. exact Hok.
  - intros f [= <-]. rewrite Hsplit in Hreading.
    apply Forall_app in Hreading as [_ Hrest].
    now inversion Hrest.
  - rewrite Hsplit in Hreading.
    apply Forall_app in Hreading as [Hbefore Hrest].
    apply Forall_app. split; [exact Hbefore | now inversion Hrest].
  - discriminate.
  - exact Hreading.
  - intros f Hf. apply Hfile.
    rewrite <- (handleAnalyze_keeps_file (page c) st' w); [exact Hf |].
    now rewrite Hrun.
  - exact Hreading.
Qed.

Lemma page_step_uploads_checked (c c' : PageConfig) (tr : list Event) (r : Request) :
  page_step c tr c' -> holds_checked_files c -> In r (requests tr) ->
  forall f, In f (uploaded r) -> passes_checks f = true.
Proof.
  intros Hstep [Hfile _] Hin.
  destruct Hstep as [c file | c before file after result Hsplit | c
                    | c w tr st' Hrun]; try (now destruct Hin).
  assert (Htr : tr = fst (handleAnalyze (page c) w)) by now rewrite Hrun.
  rewrite Htr, handleAnalyze_requests in Hin.
  destruct (imageFile (page c)) as [f0 |]; [| now destruct Hin].
  destruct Hin as [<- | []]. cbn. intros f [<- | []]. now apply Hfile.
Qed.

Lemma page_run_uploads_checked (c c' : PageConfig) (tr : list Event) :
  page_run c tr c' -> holds_checked_files c ->
  forall r, In r (requests tr) ->
  forall f, In f (uploaded r) -> passes_checks f = true.
Proof.
  induction 1 as [c | c tr c' tr' c'' Hstep Hrun IH]; intros Hinv r Hin.
  - destruct Hin.
  - rewrite requests_app in Hin. apply in_app_or in Hin as [Hin | Hin].
    + exact (page_step_uploads_checked c c' tr r Hstep Hinv Hin).
    + apply IH; [| exact Hin].
      exact (page_step_holds_checked c c' tr Hstep Hinv).
Qed.

Lemma initialConfig_holds_checked : holds_checked_files initialConfig.
Proof. split; [discriminate | constructor]. Qed.

(** C2 (as the code has it).  The checks on the file are made by the
    page, not by the client: for a file that does not declare an image
    content type, or whose size exceeds 5 MiB, [handleImageSelect] sets
    an error message, starts no read and keeps no file; and whatever the
    user does on the page from its initial state, no request ever uploads
    such a file.  The client itself makes no check: called with the
    file, it issues its request. *)
Theorem unfit_file_rejected_by_page (file : File) :
  declares_image file = false \/ oversized file = true ->
  (forall st,
      handleImageSelect st file
      = (setError (Some (if declares_image file
                         then "File size must be less than 5MB"
                         else "Please select a valid image file")) st, None))
  /\ (forall tr c,
         page_run initialConfig tr c ->
         forall r, In r (requests tr) -> ~ In file (uploaded r))
  /\ (forall w,
         requests (fst (analyzePlantImage file w)) = [analyze_request file]).
Proof.
  intros Hunfit.
  assert (Hbad : passes_checks file = false).
  { unfold passes_checks. destruct Hunfit as [-> | ->]; [reflexivity |].
    now rewrite andb_false_r. }
  split; [| split].
  - intros st. now apply handleImageSelect_rejects.
  - intros tr c Hrun r Hr Hfile.
    pose proof (page_run_uploads_checked _ _ _ Hrun
                  initialConfig_holds_checked r Hr file Hfile) as Hok.
    congruence.
  - intros w. apply analyze_requests.
Qed.

Lemma unfit_file_rejected_by_page_witness :
  (forall st,
      handleImageSelect st notes_txt
      = (setError (Some "Please select a valid image file") st, None))
  /\ (forall tr c,
         page_run initialConfig tr c ->
         forall r, In r (requests tr) -> ~ In notes_txt (uploaded r))
  /\ (forall w,
         requests (fst (analyzePlantImage notes_txt w))
         = [analyze_request notes_txt]).
Proof.
  apply (unfit_file_rejected_by_page notes_txt). left. reflexivity.
Defined.

(** C2 fails as stated: handed a file that does not declare an image
    content type, the client makes no check; it issues the request, and
    the call ends as the network exchange does. *)
Lemma client_uploads_any_file :
  declares_image notes_txt = false
  /\ analyzePlantImage notes_txt
       (world_answering (responds 200 (JsonResolves blight_report)) false)
     = ([EvRequest (analyze_request notes_txt)], Normal blight_report)
  /\ uploaded (analyze_request notes_txt) = [notes_txt].
Proof. repeat split. Qed.

(** ** The locale formatter *)

Lemma fixed_digits_length (d : nat) (n : Z) : length (fixed_digits d n) = d.
Proof.
  revert n. induction d as [| d IH]; intros n; cbn; [reflexivity |].
  rewrite length_app, IH. cbn. lia.
Qed.

Lemma digit_char_is_digit (k : Z) : 0 <= k < 10 -> is_digit (digit_char k) = true.
Proof.
  intros Hk. unfold digit_char.
  assert (Hcases : k = 0 \/ k = 1 \/ k = 2 \/ k = 3 \/ k = 4 \/ k = 5
                   \/ k = 6 \/ k = 7 \/ k = 8 \/ k = 9) by lia.
  repeat destruct Hcases as [-> | Hcases]; try subst k; reflexivity.
Qed.

Lemma digit_char_value (k : Z) : 0 <= k < 10 -> digit_value (digit_char k) = k.
Proof.
  intros Hk. unfold digit_char.
  assert (Hcases : k = 0 \/ k = 1 \/ k = 2 \/ k = 3 \/ k = 4 \/ k = 5
                   \/ k = 6 \/ k = 7 \/ k = 8 \/ k = 9) by lia.
  repeat destruct Hcases as [-> | Hcases]; try subst k; reflexivity.
Qed.

Lemma fixed_digits_are_digits (d : nat) (n : Z) :
  forallb is_digit (fixed_digits d n) = true.
Proof.
  revert n. induction d as [| d IH]; intros n; cbn; [reflexivity |].
  rewrite forallb_app, IH. cbn.
  rewrite digit_char_is_digit; [reflexivity |].
  apply Z.mod_pos_bound. lia.
Qed.

Lemma digits_value_from_app (acc : Z) (l l' : list ascii) :
  digits_value_from acc (l ++ l') = digits_value_from (digits_value_from acc l) l'.
Proof.
  revert acc. induction l as [| c l IH]; intros acc; [reflexivity |].
  cbn. apply IH.
Qed.

(** The digits [fixed_digits] gives denote the number they were taken
    from. *)
Lemma fixed_digits_value (d : nat) (n acc : Z) :
  digits_value_from acc (fixed_digits d n)
  = acc * 10 ^ Z.of_nat d + n mod 10 ^ Z.of_nat d.
Proof.
  revert n. induction d as [| d IH]; intros n.
  - cbn. rewrite Z.mod_1_r. lia.
  - cbn [fixed_digits]. rewrite digits_value_from_app, IH. cbn.
    rewrite digit_char_value by (apply Z.mod_pos_bound; lia).
    rewrite Nat2Z.inj_succ, Z.pow_succ_r by lia.
    rewrite (Z.rem_mul_r n 10 (10 ^ Z.of_nat d)) by lia.
    lia.
Qed.

Lemma fixed_digits_zero (d : nat) : fixed_digits d 0 = repeat "0"%char d.
Proof.
  induction d as [| d IH]; [reflexivity |].
  cbn [fixed_digits]. change (0 / 10) with 0. rewrite IH.
  change [digit_char (0 mod 10)] with ["0"%char].
  symmetry. apply repeat_cons.
Qed.

Lemma drop_zeros_short (keep : nat) (l : list ascii) :
  (length l <= keep)%nat -> drop_zeros keep l = l.
Proof.
  destruct l as [| c rest]; [reflexivity |]. intros Hlen. cbn [drop_zeros].
  replace (keep <? length (c :: rest))%nat with false; [reflexivity |].
  symmetry. apply Nat.ltb_ge. exact Hlen.
Qed.

(** With as many digits required as allowed, none is dropped. *)
Lemma fraction_part_fixed (d : nat) (n : Z) :
  fraction_part d d n = fixed_digits d (n mod 10 ^ Z.of_nat d).
Proof.
  unfold fraction_part. rewrite drop_zeros_short.
  - apply rev_involutive.
  - rewrite length_rev, fixed_digits_length. lia.
Qed.

Lemma string_length_of_list (l : list ascii) :
  String.length (string_of_list_ascii l) = length l.
Proof. induction l as [| c l IH]; cbn; [reflexivity | now rewrite IH]. Qed.

Lemma fraction_digits_exact (d : Z) :
  0 <= d <= 100 ->
  fraction_digits (Some {| minimumFractionDigits := Some d;
                           maximumFractionDigits := Some d |})
  = Normal (Z.to_nat d, Z.to_nat d).
Proof.
  intros Hd. unfold fraction_digits, DefaultNumberOption; cbn -[Nat.ltb].
  replace (d <? 0) with false by (symmetry; apply Z.ltb_ge; lia).
  replace (100 <? d) with false by (symmetry; apply Z.ltb_ge; lia).
  cbn -[Nat.ltb]. now rewrite Nat.ltb_irrefl.
Qed.

Lemma string_of_uint_digits (d : Decimal.uint) :
  forallb is_digit (list_ascii_of_string (NilEmpty.string_of_uint d)) = true.
Proof. induction d; cbn; auto. Qed.

Lemma integer_digits_are_digits (n : Z) :
  forallb is_digit (integer_digits n) = true.
Proof.
  unfold integer_digits, NilZero.string_of_uint.
  destruct (N.to_uint (Z.to_N n)) as [| d | d | d | d | d | d | d | d | d | d];
    [reflexivity | ..].
  - exact (string_of_uint_digits (Decimal.D0 d)).
  - exact (string_of_uint_digits (Decimal.D1 d)).
  - exact (string_of_uint_digits (Decimal.D2 d)).
  - exact (string_of_uint_digits (Decimal.D3 d)).
  - exact (string_of_uint_digits (Decimal.D4 d)).
  - exact (string_of_uint_digits (Decimal.D5 d)).
  - exact (string_of_uint_digits (Decimal.D6 d)).
  - exact (string_of_uint_digits (Decimal.D7 d)).
  - exact (string_of_uint_digits (Decimal.D8 d)).
  - exact (string_of_uint_digits (Decimal.D9 d)).
Qed.

Lemma integer_digits_nonempty (n : Z) : integer_digits n <> [].
Proof.
  unfold integer_digits, NilZero.string_of_uint.
  destruct (N.to_uint (Z.to_N n)); discriminate.
Qed.

(** The number a [Decimal.uint] denotes, most significant digit first. *)
Lemma string_of_uint_value (d : Decimal.uint) (acc : BinNums.positive) :
  digits_value_from (Zpos acc) (list_ascii_of_string (NilEmpty.string_of_uint d))
  = Zpos (Pos.of_uint_acc d acc).
Proof.
  revert acc. induction d; intros acc; cbn [NilEmpty.string_of_uint
    list_ascii_of_string digits_value_from Pos.of_uint_acc];
    [reflexivity | ..];
    rewrite <- IHd; f_equal; unfold digit_value;
    match goal with
    | |- context [nat_of_ascii ?c] =>
        let k := eval vm_compute in (Z.of_nat (nat_of_ascii c)) in
        change (Z.of_nat (nat_of_ascii c)) with k
    end; lia.
Qed.

Lemma string_of_uint_value_0 (d : Decimal.uint) :
  digits_value_from 0 (list_ascii_of_string (NilEmpty.string_of_uint d))
  = Z.of_N (Pos.of_uint d).
Proof.
  induction d; cbn [NilEmpty.string_of_uint list_ascii_of_string
    digits_value_from Pos.of_uint]; [reflexivity | exact IHd | ..];
    match goal with
    | |- digits_value_from ?a _ = Z.of_N (N.pos (Pos.of_uint_acc _ ?p)) =>
        change a with (Zpos p); apply string_of_uint_value
    end.
Qed.

(** The digits of the integer part denote it. *)
Lemma integer_digits_value (n : Z) :
  0 <= n -> digits_value (integer_digits n) = n.
Proof.
  intros Hn. unfold digits_value, integer_digits, NilZero.string_of_uint.
  pose proof (DecimalN.Unsigned.of_to (Z.to_N n)) as Hback.
  unfold N.of_uint in Hback.
  destruct (N.to_uint (Z.to_N n)) eqn:Hrepr;
    try (rewrite string_of_uint_value_0, Hback; lia).
  change (digits_value_from 0 (list_ascii_of_string "0")) with 0.
  cbn in Hback. lia.
Qed.

Lemma append_assoc (a b c : string) : (a +:+ b) +:+ c = a +:+ (b +:+ c).
Proof.
  induction a as [| ch a IH]; [reflexivity |].
  change (String ch ((a +:+ b) +:+ c) = String ch (a +:+ (b +:+ c))).
  now rewrite IH.
Qed.

Lemma append_empty (a : string) : a +:+ "" = a.
Proof.
  induction a as [| ch a IH]; [reflexivity |].
  change (String ch (a +:+ "") = String ch a). now rewrite IH.
Qed.

(** With a fixed number of fraction digits, the rendering is the sign,
    the grouped integer digits and, unless no digit is asked for, the
    separator and that many digits. *)
Lemma format_decimal_fixed (sym : NumberSymbols) (d : nat) (x : Q) :
  format_decimal sym d d x
  = (if Qnum x <? 0 then minus_sign sym else "")
    +:+ string_of_list_ascii
          (grouped sym (integer_digits (scaled_magnitude x d / 10 ^ Z.of_nat d)))
    +:+ (if (d =? 0)%nat then ""
         else decimal_sep sym
              +:+ string_of_list_ascii
                    (fixed_digits d (scaled_magnitude x d mod 10 ^ Z.of_nat d))).
Proof.
  unfold format_decimal.
  rewrite fraction_part_fixed.
  destruct d as [| d]; [reflexivity |].
  pose proof (fixed_digits_length (S d)
                (scaled_magnitude x (S d) mod 10 ^ Z.of_nat (S d))) as Hlen.
  destruct (fixed_digits (S d) _) as [| c rest]; [discriminate Hlen |].
  reflexivity.
Qed.

Lemma formatDecimal_run (h : Host) (i : I18n) (v : Q) (d : Z) :
  0 <= d <= 100 ->
  formatDecimal h i v (Some d)
  = Normal (format_decimal (current_symbols h i) (Z.to_nat d) (Z.to_nat d) v).
Proof.
  intros Hd. unfold formatDecimal, Number_toLocaleString.
  cbn [default from_option id]. now rewrite (fraction_digits_exact d Hd).
Qed.


(** [scaled_magnitude] rounds to the nearest integer, halves up. *)
Lemma scaled_magnitude_rounds (x : Q) (d : nat) :
  0 <= scaled_magnitude x d
  /\ 2 * Zpos (Qden x) * scaled_magnitude x d - Zpos (Qden x)
     <= 2 * Z.abs (Qnum x) * 10 ^ Z.of_nat d
     < 2 * Zpos (Qden x) * scaled_magnitude x d + Zpos (Qden x).
Proof.
  unfold scaled_magnitude.
  set (a := 2 * Z.abs (Qnum x) * 10 ^ Z.of_nat d + Zpos (Qden x)).
  set (b := 2 * Zpos (Qden x)).
  assert (Hpow : 0 <= 10 ^ Z.of_nat d) by (apply Z.pow_nonneg; lia).
  assert (Ha : 0 <= a) by (unfold a; nia).
  assert (Hb : 0 < b) by (unfold b; lia).
  pose proof (Z.mul_div_le a b Hb) as Hle.
  pose proof (Z.mul_succ_div_gt a b Hb) as Hgt.
  split; [apply Z.div_pos; assumption |].
  unfold a, b in *. lia.
Qed.

(** A decimal of at most [d] fraction digits is not changed by
    rounding to [d] digits. *)
Lemma scaled_magnitude_decimal (x : Q) (m : Z) (k d : nat) :
  (x == m # Z.to_pos (10 ^ Z.of_nat k))%Q ->
  (k <= d)%nat ->
  scaled_magnitude x d = Z.abs m * 10 ^ (Z.of_nat d - Z.of_nat k).
Proof.
  intros Heq Hk.
  destruct (scaled_magnitude_rounds x d) as [Hpos Hround].
  set (n := scaled_magnitude x d) in *.
  unfold Qeq in Heq. cbn [Qnum Qden] in Heq.
  assert (HK : 0 < 10 ^ Z.of_nat k) by (apply Z.pow_pos_nonneg; lia).
  rewrite Z2Pos.id in Heq by exact HK.
  assert (HR : 0 < 10 ^ (Z.of_nat d - Z.of_nat k))
    by (apply Z.pow_pos_nonneg; lia).
  assert (Hpow : 10 ^ Z.of_nat d
                 = 10 ^ Z.of_nat k * 10 ^ (Z.of_nat d - Z.of_nat k)).
  { rewrite <- Z.pow_add_r by lia. f_equal. lia. }
  assert (Habs : Z.abs (Qnum x) * 10 ^ Z.of_nat k = Z.abs m * Zpos (Qden x)).
  { rewrite <- (Z.abs_eq (10 ^ Z.of_nat k)) at 1 by lia.
    rewrite <- Z.abs_mul, Heq, Z.abs_mul. f_equal. }
  rewrite Hpow in Hround.
  set (K := 10 ^ Z.of_nat k) in *.
  set (R := 10 ^ (Z.of_nat d - Z.of_nat k)) in *.
  set (den := Zpos (Qden x)) in *.
  assert (Hden : 0 < den) by (unfold den; lia).
  assert (Hscaled : den * (K * (2 * n - 1)) <= den * (K * (2 * (Z.abs m * R)))
                    /\ den * (K * (2 * (Z.abs m * R))) < den * (K * (2 * n + 1))).
  { replace (den * (K * (2 * (Z.abs m * R))))
      with (K * (2 * (Z.abs (Qnum x) * K) * R))
      by (rewrite Habs; ring).
    split.
    - replace (den * (K * (2 * n - 1))) with (K * (2 * den * n - den)) by ring.
      replace (K * (2 * (Z.abs (Qnum x) * K) * R))
        with (K * (2 * Z.abs (Qnum x) * (K * R))) by ring.
      apply Z.mul_le_mono_nonneg_l; lia.
    - replace (den * (K * (2 * n + 1))) with (K * (2 * den * n + den)) by ring.
      replace (K * (2 * (Z.abs (Qnum x) * K) * R))
        with (K * (2 * Z.abs (Qnum x) * (K * R))) by ring.
      apply Z.mul_lt_mono_pos_l; lia. }
  destruct Hscaled as [Hlow Hhigh].
  apply Z.mul_le_mono_pos_l in Hlow; [| exact Hden].
  apply Z.mul_le_mono_pos_l in Hlow; [| exact HK].
  apply Z.mul_lt_mono_pos_l in Hhigh; [| exact Hden].
  apply Z.mul_lt_mono_pos_l in Hhigh; [| exact HK].
  lia.
Qed.

(** C6 (as the code has it).  For a number of digits [d] from 0 to 100,
    [formatDecimal] renders [v] as a sign (none, or the locale's minus
    sign), the grouped digits of an integer part, and, unless [d] is 0,
    the locale's decimal separator followed by exactly [d] digits,
    whatever the precision of [v] and whatever the current language.
    When [v] (a decimal of up to 15 significant digits) has no more than
    [d] fraction digits of its own, the digits shown are its own, padded
    with zeros: they denote [|v|] exactly.  In English, 6.5 with one
    digit is "6.5" and 6 with two digits is "6.00". *)
Theorem formatDecimal_fraction_digits (h : Host) (i : I18n) (v : Q) (d : Z) :
  0 <= d <= 100 ->
  (exists (sign : string) (int_digits : list ascii) (fraction : string),
      formatDecimal h i v (Some d)
      = Normal (sign
                +:+ string_of_list_ascii (grouped (current_symbols h i) int_digits)
                +:+ (if d =? 0 then ""
                     else decimal_sep (current_symbols h i) +:+ fraction))
      /\ (sign = "" \/ sign = minus_sign (current_symbols h i))
      /\ int_digits <> []
      /\ forallb is_digit int_digits = true
      /\ String.length fraction = Z.to_nat d
      /\ all_digits fraction = true
      /\ (forall (m : Z) (k : nat),
             (v == decimal m k)%Q ->
             Z.of_nat k <= d ->
             Z.abs m < 10 ^ 15 ->
             digits_value int_digits * 10 ^ d
             + digits_value (list_ascii_of_string fraction)
             = Z.abs m * 10 ^ (d - Z.of_nat k)))
  /\ (forall res, formatDecimal h (mkI18n "en" res) (13 # 2) (Some 1)
                  = Normal "6.5")
  /\ (forall res, formatDecimal h (mkI18n "en" res) 6 (Some 2)
                  = Normal "6.00").
Proof.
  intros Hd. split; [| split; reflexivity].
  exists (if Qnum v <? 0 then minus_sign (current_symbols h i) else ""),
    (integer_digits (scaled_magnitude v (Z.to_nat d) / 10 ^ Z.of_nat (Z.to_nat d))),
    (string_of_list_ascii
       (fixed_digits (Z.to_nat d)
          (scaled_magnitude v (Z.to_nat d) mod 10 ^ Z.of_nat (Z.to_nat d)))).
  split; [| split; [| split; [| split; [| split; [| split]]]]].
  - rewrite (formatDecimal_run h i v d Hd), format_decimal_fixed.
    replace (Z.to_nat d =? 0)%nat with (d =? 0); [reflexivity |].
    destruct (Z.eqb_spec d 0) as [-> | Hne]; [reflexivity |].
    symmetry. apply Nat.eqb_neq. lia.
  - destruct (Qnum v <? 0); auto.
  - apply integer_digits_nonempty.
  - apply integer_digits_are_digits.
  - now rewrite string_length_of_list, fixed_digits_length.
  - unfold all_digits. rewrite list_ascii_of_string_of_list_ascii.
    apply fixed_digits_are_digits.
  - intros m k Heq Hk _.
    destruct (scaled_magnitude_rounds v (Z.to_nat d)) as [Hpos _].
    rewrite list_ascii_of_string_of_list_ascii.
    unfold digits_value at 2. rewrite fixed_digits_value.
    rewrite integer_digits_value
      by (apply Z.div_pos; [exact Hpos | apply Z.pow_pos_nonneg; lia]).
    rewrite Z.mod_mod by (apply Z.pow_nonzero; lia).
    pose proof (scaled_magnitude_decimal v m k (Z.to_nat d) Heq) as Hexact.
    rewrite !Z2Nat.id in * by lia. rewrite <- Hexact by lia.
    pose proof (Z.div_mod (scaled_magnitude v (Z.to_nat d)) (10 ^ d)) as Hdiv.
    specialize (Hdiv ltac:(apply Z.pow_nonzero; lia)). lia.
Qed.

(** A digit count outside 0..100 is refused by the runtime. *)
Lemma formatDecimal_out_of_range (h : Host) (i : I18n) (v : Q) (d : Z) :
  d < 0 \/ 100 < d ->
  formatDecimal h i v (Some d)
  = Throw (RangeError "minimumFractionDigits value is out of range.").
Proof.
  intros Hd. unfold formatDecimal, Number_toLocaleString.
  cbn [default from_option id].
  unfold fraction_digits, DefaultNumberOption; cbn -[Nat.ltb].
  replace ((d <? 0) || (100 <? d)) with true; [reflexivity |].
  symmetry. apply orb_true_iff.
  destruct Hd; [left; apply Z.ltb_lt | right; apply Z.ltb_lt]; lia.
Qed.

Lemma formatDecimal_fraction_digits_witness :
  (exists (sign : string) (int_digits : list ascii) (fraction : string),
      formatDecimal sample_host english (1005 # 1000) (Some 2)
      = Normal (sign
                +:+ string_of_list_ascii
                      (grouped (current_symbols sample_host english) int_digits)
                +:+ (decimal_sep (current_symbols sample_host english)
                     +:+ fraction))
      /\ String.length fraction = 2%nat)
  /\ formatDecimal sample_host english 6 (Some 2) = Normal "6.00".
Proof.
  destruct (formatDecimal_fraction_digits sample_host english (1005 # 1000) 2)
    as [(sign & int_digits & fraction & Hrun & _ & _ & _ & Hlen & _)
          (_ & Hsix)]; [lia |].
  split; [| exact (Hsix ∅)].
  exists sign, int_digits, fraction. split; [exact Hrun | exact Hlen].
Defined.

(** C6 fails as stated: a digit count above 100 is refused by the
    runtime, and the call throws instead of returning a string. *)
Lemma formatDecimal_refuses_101_digits :
  formatDecimal sample_host english 6 (Some 101)
  = Throw (RangeError "minimumFractionDigits value is out of range.").
Proof. reflexivity. Qed.











(** The renderings of some numbers in English.  A tie is rounded away
    from zero on the decimal the number prints as: 1.005 with two digits
    is "1.01", and 2.9995 is "3".  The number 2^60 prints as
    1152921504606847000 and is rendered from that.  The product
    0.93 * 100 prints as 93.00000000000001 and is shown as "93%". *)
Lemma English_renderings (h : Host) (res : gmap string (gmap string Translation)) :
  formatDecimal h (mkI18n "en" res) (decimal 1005 3) (Some 2) = Normal "1.01"
  /\ formatNumber h (mkI18n "en" res) (decimal 29995 4) None = Normal "3"
  /\ formatNumber h (mkI18n "en" res) (decimal 1152921504606847000 0) None
     = Normal "1,152,921,504,606,847,000"
  /\ formatNumber h (mkI18n "en" res) (decimal 1234567891 3) None
     = Normal "1,234,567.891"
  /\ formatNumberWithPercent h (mkI18n "en" res) (decimal 925 1) None
     = Normal "92.5%"
  /\ formatNumberWithPercent h (mkI18n "en" res)
       (decimal 9300000000000001 14) None
     = Normal "93%".
Proof. repeat split. Qed.

(** *** Locale resolution *)

Lemma getLocaleCode_supported (res : gmap string (gmap string Translation)) :
  getLocaleCode (mkI18n "en" res) = JStr "en-US"
  /\ getLocaleCode (mkI18n "hi" res) = JStr "hi-IN"
  /\ getLocaleCode (mkI18n "kn" res) = JStr "kn-IN".
Proof. repeat split. Qed.

(** A language that is neither supported nor the name of a member of
    [Object.prototype] resolves to the default locale. *)
Lemma getLocaleCode_fallback (i : I18n) :
  language i <> "en" -> language i <> "hi" -> language i <> "kn" ->
  inherited (language i) = false ->
  getLocaleCode i = JStr "en-US".
Proof.
  intros Hen Hhi Hkn Hinh.
  unfold getLocaleCode, object_get, localeMap; cbn -[String.eqb inherited].
  rewrite (proj2 (String.eqb_neq "en" (language i))) by congruence.
  rewrite (proj2 (String.eqb_neq "hi" (language i))) by congruence.
  rewrite (proj2 (String.eqb_neq "kn" (language i))) by congruence.
  now rewrite Hinh.
Qed.

Lemma inherited_names (name : string) :
  inherited name = true -> In name Object_prototype_names.
Proof.
  unfold inherited. intros (member & Hin & Heq)%existsb_exists.
  apply String.eqb_eq in Heq. now subst member.
Qed.


(** The current language as the name of a member of [Object.prototype]
    ("toString", "constructor", ...): a state the program does not put
    itself in, since its start-up selects a supported language.  There
    the lookup in [localeMap] finds the inherited member, which is
    truthy, and [getLocaleCode] returns it instead of "en-US"; the
    formatters, handed a value that lists no locale, render in the
    host's default locale, and do not throw either. *)
Lemma getLocaleCode_inherited_member (h : Host) (i : I18n) (v : Q) :
  inherited (language i) = true ->
  getLocaleCode i = JBuiltin (language i)
  /\ formatNumber h i v None
     = Normal (format_decimal (symbols h (default_locale h)) 0 3 v).
Proof.
  intros Hinh. apply inherited_names in Hinh.
  destruct i as [lang res]. cbn [language] in *.
  unfold Object_prototype_names in Hinh.
  repeat (destruct Hinh as [<- | Hinh]; [split; reflexivity |]).
  destruct Hinh.
Qed.

(** *** The persisted language *)

Lemma getSavedLanguage_absent (b : Browser) :
  (forall s, localStorage b = Some s -> items s !! "i18nextLng" = None) ->
  getSavedLanguage b = "en".
Proof.
  intros Habsent. unfold getSavedLanguage, getItem.
  destruct (has_window b); [| reflexivity].
  destruct (localStorage b) as [s |]; [| reflexivity].
  destruct (getItem_throws s); [reflexivity |].
  now rewrite (Habsent s eq_refl).
Qed.

(** At startup the language is one of the three supported ones, and it
    is "en" whenever the saved value is absent or is none of them. *)
Lemma initialLanguage_valid (b : Browser) :
  initialLanguage b ∈ validLanguages.
Proof.
  unfold initialLanguage. case_bool_decide as Hin; [exact Hin |].
  unfold validLanguages. set_solver.
Qed.

Lemma initialLanguage_unrecognized (b : Browser) :
  getSavedLanguage b ∉ validLanguages -> initialLanguage b = "en".
Proof.
  intros Hout. unfold initialLanguage. now rewrite bool_decide_eq_false_2.
Qed.

Lemma initialLanguage_absent (b : Browser) :
  (forall s, localStorage b = Some s -> items s !! "i18nextLng" = None) ->
  initialLanguage b = "en".
Proof.
  intros Habsent. unfold initialLanguage.
  rewrite (getSavedLanguage_absent b Habsent). reflexivity.
Qed.



(** At startup the current language is a supported one, and its locale
    is one of the three of [localeMap]. *)
Lemma startup_locale_resolves (b : Browser)
    (res : gmap string (gmap string Translation)) :
  In (getLocaleCode (init b res)) [JStr "en-US"; JStr "kn-IN"; JStr "hi-IN"].
Proof.
  pose proof (initialLanguage_valid b) as Hvalid.
  unfold getLocaleCode, init. cbn [language].
  unfold validLanguages in Hvalid.
  rewrite !elem_of_cons, elem_of_nil in Hvalid.
  destruct Hvalid as [-> | [-> | [-> | []]]]; cbn; auto.
Qed.



(** *** Month labels *)

Lemma month_key_in_range (keys : list string) (m : Z) :
  0 <= m < Z.of_nat (length keys) ->
  exists key, array_get keys m = Some key.
Proof.
  intros Hm. unfold array_get.
  replace (0 <=? m) with true by (symmetry; apply Z.leb_le; lia).
  destruct (keys !! Z.to_nat m) as [key |] eqn:Hkey.
  - now exists key.
  - apply lookup_ge_None in Hkey. lia.
Qed.

(** Within 0..11 both functions return a string, whatever the
    translations are. *)
Lemma getMonthAbbr_string (i : I18n) (m : Z) :
  0 <= m < 12 -> exists label, getMonthAbbr i m = JStr label.
Proof.
  intros Hm. destruct (month_key_in_range monthAbbrKeys m Hm) as (key & Hkey).
  unfold getMonthAbbr, js_or. rewrite Hkey.
  destruct (ToBoolean _); eexists; reflexivity.
Qed.

Lemma getMonthName_string (i : I18n) (m : Z) :
  0 <= m < 12 -> exists label, getMonthName i m = JStr label.
Proof.
  intros Hm. destruct (month_key_in_range monthNameKeys m Hm) as (key & Hkey).
  unfold getMonthName, js_or. rewrite Hkey.
  destruct (ToBoolean _); eexists; reflexivity.
Qed.

(** [t] outside the language "cimode". *)
Lemma t_lookup (i : I18n) (key : string) :
  toLowerCase (language i) <> "cimode" ->
  t i key = match first_resource i (resolve_hierarchy (language i)) key with
            | Some v => extendTranslation v
            | None => key
            end.
Proof.
  intros Hmode. unfold t.
  now rewrite (proj2 (String.eqb_neq _ _) Hmode).
Qed.

(** A translation that is found and not empty is the label. *)
Lemma getMonthAbbr_translated (i : I18n) (m : Z) (key : string)
    (v : Translation) :
  toLowerCase (language i) <> "cimode" ->
  array_get monthAbbrKeys m = Some key ->
  first_resource i (resolve_hierarchy (language i)) ("months." +:+ key)
  = Some v ->
  extendTranslation v <> "" ->
  getMonthAbbr i m = JStr (extendTranslation v).
Proof.
  intros Hmode Hkey Hfound Hne. unfold getMonthAbbr, js_or.
  rewrite Hkey. cbn [template_text element].
  rewrite (t_lookup i _ Hmode), Hfound. cbn [ToBoolean].
  now rewrite (proj2 (String.eqb_neq (extendTranslation v) "")).
Qed.

(** Without a translation [i18n.t] returns the key it was asked for,
    prefix included, and that is the label. *)
Lemma getMonthAbbr_missing (i : I18n) (m : Z) (key : string) :
  toLowerCase (language i) <> "cimode" ->
  array_get monthAbbrKeys m = Some key ->
  first_resource i (resolve_hierarchy (language i)) ("months." +:+ key) = None ->
  getMonthAbbr i m = JStr ("months." +:+ key).
Proof.
  intros Hmode Hkey Hmissing. unfold getMonthAbbr, js_or.
  rewrite Hkey. cbn [template_text element].
  rewrite (t_lookup i _ Hmode), Hmissing. reflexivity.
Qed.

(** So it is in the language "cimode", whatever the translations. *)
Lemma getMonthAbbr_cimode (i : I18n) (m : Z) (key : string) :
  toLowerCase (language i) = "cimode" ->
  array_get monthAbbrKeys m = Some key ->
  getMonthAbbr i m = JStr ("months." +:+ key).
Proof.
  intros Hmode Hkey. unfold getMonthAbbr, js_or, t.
  rewrite Hkey, Hmode. reflexivity.
Qed.

(** The key alone is the label only for a translation that is the empty
    string. *)
Lemma getMonthAbbr_empty_translation (i : I18n) (m : Z) (key : string)
    (v : Translation) :
  toLowerCase (language i) <> "cimode" ->
  array_get monthAbbrKeys m = Some key ->
  first_resource i (resolve_hierarchy (language i)) ("months." +:+ key)
  = Some v ->
  extendTranslation v = "" ->
  getMonthAbbr i m = JStr key.
Proof.
  intros Hmode Hkey Hfound Hempty. unfold getMonthAbbr, js_or.
  rewrite Hkey. cbn [template_text element].
  rewrite (t_lookup i _ Hmode), Hfound, Hempty. reflexivity.
Qed.

(** C9, at the input where the code departs from it.  With no
    translation for January, neither in the current language nor in the
    fallback language, the label is not the month key "jan" (or
    "january"): it is the key the lookup was made with, "months.jan"
    (or "months.january"). *)
Theorem month_label_without_translation :
  first_resource english (resolve_hierarchy (language english)) "months.jan"
  = None
  /\ getMonthAbbr english 0 = JStr "months.jan"
  /\ getMonthAbbr english 0 <> JStr "jan"
  /\ getMonthName english 0 = JStr "months.january"
  /\ getMonthName english 0 <> JStr "january".
Proof. repeat split; discriminate. Qed.

(** *** Saving and restoring the language *)

(** C10 (as the code has it).  For a supported language, when the
    browser has a storage and the write succeeds, the listener stores the
    language under "i18nextLng" and logs nothing, and a start from that
    storage selects the same language. *)
Theorem saved_language_restored (b : Browser) (s : Storage) (lng : string) :
  In lng validLanguages ->
  has_window b = true ->
  localStorage b = Some s ->
  setItem_throws s = false ->
  getItem_throws s = false ->
  (exists s', localStorage (fst (on_languageChanged b lng)) = Some s'
              /\ items s' !! "i18nextLng" = Some lng)
  /\ snd (on_languageChanged b lng) = []
  /\ initialLanguage (fst (on_languageChanged b lng)) = lng.
Proof.
  intros Hlng Hwin Hstorage Hwrite Hread.
  unfold on_languageChanged, setItem. rewrite Hwin, Hstorage, Hwrite. cbn.
  split; [| split; [reflexivity |]].
  - eexists. split; [reflexivity |]. cbn. apply lookup_insert_eq.
  - unfold initialLanguage, getSavedLanguage, getItem. cbn.
    rewrite Hread, lookup_insert_eq.
    destruct Hlng as [<- | [<- | [<- | []]]]; reflexivity.
Qed.

Lemma saved_language_restored_witness :
  (exists s', localStorage (fst (on_languageChanged (browser_with ∅ false) "kn"))
              = Some s'
              /\ items s' !! "i18nextLng" = Some "kn")
  /\ snd (on_languageChanged (browser_with ∅ false) "kn") = []
  /\ initialLanguage (fst (on_languageChanged (browser_with ∅ false) "kn")) = "kn".
Proof.
  apply (saved_language_restored (browser_with ∅ false)
           {| items := ∅; getItem_throws := false; setItem_throws := false |}
           "kn"); try reflexivity.
  right. left. reflexivity.
Defined.

(** When the write fails the listener only logs a warning: the browser
    is left as it was. *)
Lemma failed_write_is_swallowed (b : Browser) (s : Storage) (lng : string) :
  has_window b = true ->
  localStorage b = Some s ->
  setItem_throws s = true ->
  on_languageChanged b lng
  = (b, [EvConsoleWarn "Failed to save language preference:" QuotaExceededError]).
Proof.
  intros Hwin Hstorage Hwrite.
  unfold on_languageChanged, setItem. now rewrite Hwin, Hstorage, Hwrite.
Qed.

(** C10 fails as stated: with a storage that holds "en" and refuses the
    write, after the change to "kn" the key still holds "en", and a start
    from that storage selects "en". *)
Lemma failed_write_loses_language :
  In "kn" validLanguages
  /\ fst (on_languageChanged (browser_with {["i18nextLng" := "en"]} true) "kn")
     = browser_with {["i18nextLng" := "en"]} true
  /\ ({["i18nextLng" := "en"]} : gmap string string) !! "i18nextLng" <> Some "kn"
  /\ initialLanguage
       (fst (on_languageChanged (browser_with {["i18nextLng" := "en"]} true) "kn"))
     <> "kn".
Proof.
  split; [right; left; reflexivity |].
  split; [reflexivity |].
  split; [rewrite lookup_singleton_eq; discriminate |].
  vm_compute. discriminate.
Qed.

(** * Further properties *)

(** ** The client's calls *)

(** X1.  [analyzePlantImage] writes to the console exactly when it
    throws, and then once: the value it throws, under its label.  A call
    that returns leaves only its request in the trace. *)
Theorem analyzePlantImage_logs_what_it_throws (file : File) (w : World) :
  match snd (analyzePlantImage file w) with
  | Normal _ => fst (analyzePlantImage file w) = [EvRequest (analyze_request file)]
  | Throw e =>
      fst (analyzePlantImage file w)
      = [EvRequest (analyze_request file);
         EvConsoleError "Error analyzing plant image:" e]
  end.
Proof.
  destruct (network w (analyze_request file)) as [e | r] eqn:Hnet.
  - now rewrite (analyze_transport_failure file w e Hnet).
  - destruct (ok r) eqn:Hok.
    + destruct (body_json r) as [e | v] eqn:Hbody.
      * now rewrite (analyze_success_unparsable file w r e Hnet Hok Hbody).
      * now rewrite (analyze_success file w r v Hnet Hok Hbody).
    + destruct (analyze_http_failure file w r Hnet Hok) as [e ->].
      reflexivity.
Qed.

(** The failure path of [analyzePlantImage] once the error body has
    parsed to [v]. *)
Lemma analyze_http_failure_parsed (file : File) (w : World) (r : Response)
    (v : JsValue) :
  network w (analyze_request file) = FetchResponds r ->
  ok r = false ->
  body_json r = JsonResolves v ->
  snd (analyzePlantImage file w)
  = match js_get v "detail" with
    | Throw e => Throw e
    | Normal d =>
        if ToBoolean d then throw_new_Error d
        else match js_get v "message" with
             | Throw e => Throw e
             | Normal m =>
                 throw_new_Error
                   (js_or m (JStr ("HTTP error! status: "
                                     +:+ Z_to_string (status r))))
             end
    end.
Proof.
  intros Hnet Hok Hbody.
  unfold analyzePlantImage, try_catch, bind, fetch; cbn.
  match goal with
  | |- context [network w (mkRequest ?u ?i)] =>
      change (mkRequest u i) with (analyze_request file)
  end.
  rewrite Hnet, Hok; cbn. unfold Response_json, lift. rewrite Hbody; cbn.
  unfold throw_new_Error.
  destruct (js_get v "detail") as [d | e]; cbn -[new_Error]; [| reflexivity].
  destruct (ToBoolean d); cbn -[new_Error].
  - now destruct (new_Error d).
  - destruct (js_get v "message") as [m | e]; cbn -[new_Error];
      [| reflexivity].
    now destruct (new_Error _).
Qed.

Lemma js_or_defined (a b : JsValue) :
  b <> JUndefined -> js_or a b <> JUndefined.
Proof.
  intros Hb. unfold js_or. destruct (ToBoolean a) eqn:Htruthy; [| exact Hb].
  intros ->. discriminate Htruthy.
Qed.

Lemma throw_new_Error_text {A} (v : JsValue) :
  v <> JUndefined ->
  @throw_new_Error A v
  = match ToString v with
    | Normal text => Throw (ThrownError (mkError "Error" text))
    | Throw t => Throw t
    end.
Proof.
  intros Hv. unfold throw_new_Error, new_Error.
  destruct v; try congruence; cbn [Completion_bind];
    now destruct (ToString _).
Qed.

(** X2.  When a failure status comes with a body that parses to a JSON
    object, the value chosen is the first truthy one among its [detail],
    its [message] and the status message, whatever its type, and what
    is thrown is an [Error] whose message is the text of that value: a
    [detail] that is a list of validation errors is converted to text,
    not skipped.  When the value has no text (an object with a
    [toString] field of its own), the [TypeError] of the conversion is
    thrown instead. *)
Theorem object_error_body_message (file : File) (w : World) (r : Response)
    (fields : list (string * JsValue)) :
  network w (analyze_request file) = FetchResponds r ->
  ok r = false ->
  body_json r = JsonResolves (JObj fields) ->
  match ToString (js_or (object_get fields "detail")
                    (js_or (object_get fields "message")
                       (JStr ("HTTP error! status: "
                                +:+ Z_to_string (status r))))) with
  | Normal text =>
      snd (analyzePlantImage file w)
      = Throw (ThrownError (mkError "Error" text))
  | Throw t =>
      t = TypeError "Cannot convert object to primitive value"
      /\ snd (analyzePlantImage file w) = Throw t
  end.
Proof.
  intros Hnet Hok Hbody.
  pose proof (analyze_http_failure_parsed file w r _ Hnet Hok Hbody) as Hrun.
  cbn [js_get] in Hrun.
  set (fallback := JStr ("HTTP error! status: " +:+ Z_to_string (status r)))
    in *.
  assert (Hchosen : snd (analyzePlantImage file w)
                    = throw_new_Error
                        (js_or (object_get fields "detail")
                           (js_or (object_get fields "message") fallback))).
  { rewrite Hrun. unfold js_or.
    now destruct (ToBoolean (object_get fields "detail")). }
  rewrite throw_new_Error_text in Hchosen
    by (apply js_or_defined, js_or_defined; discriminate).
  destruct (ToString _) as [text | t] eqn:Htext; [exact Hchosen |].
  split; [exact (ToString_throws _ _ Htext) | exact Hchosen].
Qed.

Lemma object_error_body_message_witness :
  snd (analyzePlantImage leaf_photo
         (world_answering (responds 422 validation_errors) false))
  = Throw (ThrownError (mkError "Error" "[object Object]"))
  /\ snd (analyzePlantImage leaf_photo
            (world_answering
               (responds 500
                  (JsonResolves
                     (JObj [("detail", JObj [("toString", JNum "1")])])))
               false))
     = Throw (TypeError "Cannot convert object to primitive value").
Proof.
  split.
  - exact (object_error_body_message leaf_photo
             (world_answering (responds 422 validation_errors) false)
             (mkResponse 422 validation_errors)
             [("detail", JArr [JObj [("msg", JStr "field required")]])]
             eq_refl eq_refl eq_refl).
  - exact (proj2 (object_error_body_message leaf_photo
             (world_answering
                (responds 500
                   (JsonResolves
                      (JObj [("detail", JObj [("toString", JNum "1")])])))
                false)
             (mkResponse 500
                (JsonResolves
                   (JObj [("detail", JObj [("toString", JNum "1")])])))
             [("detail", JObj [("toString", JNum "1")])]
             eq_refl eq_refl eq_refl)).
Defined.

(** X3.  When a failure status comes with the JSON body [null], reading
    its [detail] throws: the caller receives a [TypeError], and the
    status code is lost.  A body that parses to a string, a number, a
    boolean or an array has neither field, and gives the status
    message. *)
Theorem scalar_error_body (file : File) (w : World) (r : Response) (v : JsValue) :
  network w (analyze_request file) = FetchResponds r ->
  ok r = false ->
  body_json r = JsonResolves v ->
  match v with
  | JNull =>
      exists text, snd (analyzePlantImage file w) = Throw (TypeError text)
  | JBool _ | JNum _ | JStr _ | JArr _ =>
      snd (analyzePlantImage file w)
      = Throw (ThrownError
                 (mkError "Error"
                    ("HTTP error! status: " +:+ Z_to_string (status r))))
  | _ => True
  end.
Proof.
  intros Hnet Hok Hbody.
  pose proof (analyze_http_failure_parsed file w r v Hnet Hok Hbody) as Hrun.
  destruct v; try exact I; cbn in Hrun; try exact Hrun.
  eexists. exact Hrun.
Qed.

Lemma scalar_error_body_witness :
  (exists text,
      snd (analyzePlantImage leaf_photo
             (world_answering (responds 502 (JsonResolves JNull)) false))
      = Throw (TypeError text))
  /\ snd (analyzePlantImage leaf_photo
            (world_answering
               (responds 502 (JsonResolves (JStr "Bad Gateway"))) false))
     = Throw (ThrownError (mkError "Error" "HTTP error! status: 502")).
Proof.
  split.
  - exact (scalar_error_body leaf_photo
             (world_answering (responds 502 (JsonResolves JNull)) false)
             (mkResponse 502 (JsonResolves JNull)) JNull
             eq_refl eq_refl eq_refl).
  - exact (scalar_error_body leaf_photo
             (world_answering
                (responds 502 (JsonResolves (JStr "Bad Gateway"))) false)
             (mkResponse 502 (JsonResolves (JStr "Bad Gateway")))
             (JStr "Bad Gateway") eq_refl eq_refl eq_refl).
Defined.

(** X4.  [checkApiHealth] issues one GET request to [/health] and never
    throws: it returns [true] exactly when a response arrives with a
    status in 200-299, without reading its body; a transport failure is
    logged and gives [false]. *)
Theorem checkApiHealth_outcome (w : World) :
  checkApiHealth w
  = match network w (mkRequest "http://localhost:8000/health"
                       (mkInit "GET" None [] None)) with
    | FetchResponds r =>
        ([EvRequest (mkRequest "http://localhost:8000/health"
                       (mkInit "GET" None [] None))],
         Normal (ok r))
    | FetchRejects e =>
        ([EvRequest (mkRequest "http://localhost:8000/health"
                       (mkInit "GET" None [] None));
          EvConsoleError "Error checking API health:" e],
         Normal false)
    end.
Proof.
  unfold checkApiHealth, try_catch, bind, fetch; cbn.
  change (API_BASE_URL +:+ "/health") with "http://localhost:8000/health".
  match goal with
  | |- context [network w ?req] => destruct (network w req) as [e | r]
  end; reflexivity.
Qed.

(** X5.  On a status outside 200-299, [getDatasetStats] and
    [getModelInfo] throw an [Error] whose message is "HTTP error!
    status: " and the code.  Unlike [analyzePlantImage] they do not read
    the error body: the message is the same whatever the service sent. *)
Theorem read_only_calls_ignore_error_body (w : World) (r r' : Response) :
  network w (mkRequest "http://localhost:8000/dataset-stats"
               (mkInit "GET" None [] None)) = FetchResponds r ->
  network w (mkRequest "http://localhost:8000/model-info"
               (mkInit "GET" None [] None)) = FetchResponds r' ->
  ok r = false ->
  ok r' = false ->
  snd (getDatasetStats w)
  = Throw (ThrownError
             (mkError "Error"
                ("HTTP error! status: " +:+ Z_to_string (status r))))
  /\ snd (getModelInfo w)
     = Throw (ThrownError
                (mkError "Error"
                   ("HTTP error! status: " +:+ Z_to_string (status r')))).
Proof.
  intros Hnet Hnet' Hok Hok'. split.
  - unfold getDatasetStats, try_catch, bind, fetch; cbn.
    change (API_BASE_URL +:+ "/dataset-stats")
      with "http://localhost:8000/dataset-stats".
    now rewrite Hnet, Hok.
  - unfold getModelInfo, try_catch, bind, fetch; cbn.
    change (API_BASE_URL +:+ "/model-info")
      with "http://localhost:8000/model-info".
    now rewrite Hnet', Hok'.
Qed.

Lemma read_only_calls_ignore_error_body_witness :
  snd (getDatasetStats (world_answering (responds 500 model_unavailable) false))
  = Throw (ThrownError (mkError "Error" "HTTP error! status: 500"))
  /\ snd (getModelInfo (world_answering (responds 500 model_unavailable) false))
     = Throw (ThrownError (mkError "Error" "HTTP error! status: 500")).
Proof.
  exact (read_only_calls_ignore_error_body
           (world_answering (responds 500 model_unavailable) false)
           (mkResponse 500 model_unavailable)
           (mkResponse 500 model_unavailable)
           eq_refl eq_refl eq_refl eq_refl).
Defined.

(** ** The plant health page *)

(** What [handleAnalyze] leaves untouched. *)
Lemma handleAnalyze_keeps_preview (st st' : PageState) (w : World) :
  snd (handleAnalyze st w) = Normal st' ->
  image st' = image st /\ imageFile st' = imageFile st.
Proof.
  intros Hrun. split; [| exact (handleAnalyze_keeps_file st st' w Hrun)].
  revert Hrun. unfold handleAnalyze.
  destruct (imageFile st) as [f |].
  - unfold bind, try_catch.
    destruct (analyzePlantImage f w) as [tr [v | e]]; cbn;
      intros [= <-]; reflexivity.
  - cbn. intros [= <-]. reflexivity.
Qed.

Lemma handleAnalyze_after_throw (st : PageState) (w : World) (f : File)
    (tr : list Event) (t : Thrown) :
  imageFile st = Some f ->
  analyzePlantImage f w = (tr, Throw t) ->
  handleAnalyze st w
  = ((tr ++ [EvConsoleError "Analysis error:" t])%list,
     Normal (setLoading false
               (setError (Some (shown_message t))
                  (setError None (setLoading true st))))).
Proof.
  intros Hfile Hrun. unfold handleAnalyze, bind, try_catch.
  rewrite Hfile, Hrun; cbn. now rewrite !app_nil_r.
Qed.

(** X6.  When the network is unreachable, [handleAnalyze] ends with the
    message of the transport's error on the page (a fixed text when what
    was thrown is not an [Error]), [loading] cleared, and the file, its
    preview and any earlier analysis as they were, so that the analysis
    can be tried again; the error is logged by the client and by the
    page. *)
Theorem page_after_transport_failure (st : PageState) (w : World) (f : File)
    (t : Thrown) :
  imageFile st = Some f ->
  network w (analyze_request f) = FetchRejects t ->
  exists st',
    handleAnalyze st w
    = ([EvRequest (analyze_request f);
        EvConsoleError "Error analyzing plant image:" t;
        EvConsoleError "Analysis error:" t], Normal st')
    /\ error st' = Some (shown_message t)
    /\ loading st' = false
    /\ imageFile st' = Some f
    /\ image st' = image st
    /\ analysis st' = analysis st.
Proof.
  intros Hfile Hnet.
  rewrite (handleAnalyze_after_throw st w f _ t Hfile
             (analyze_transport_failure f w t Hnet)).
  eexists. split; [reflexivity |]. cbn. auto.
Qed.

Lemma page_after_transport_failure_witness :
  exists st',
    handleAnalyze (setImageFile (Some leaf_photo) initialPage) offline
    = ([EvRequest (analyze_request leaf_photo);
        EvConsoleError "Error analyzing plant image:" (TypeError "Failed to fetch");
        EvConsoleError "Analysis error:" (TypeError "Failed to fetch")],
       Normal st')
    /\ error st' = Some "Failed to fetch"
    /\ loading st' = false
    /\ imageFile st' = Some leaf_photo
    /\ image st' = None
    /\ analysis st' = None.
Proof.
  exact (page_after_transport_failure
           (setImageFile (Some leaf_photo) initialPage) offline leaf_photo
           (TypeError "Failed to fetch") eq_refl eq_refl).
Defined.

(** X7.  When the service answers with a failure status and an error
    body of the documented shape, the page shows the message the client
    resolved from it: the service's [detail], else its [message], else
    the status message. *)
Theorem page_shows_service_message (st : PageState) (w : World) (f : File)
    (r : Response) (body : ApiError) :
  imageFile st = Some f ->
  network w (analyze_request f) = FetchResponds r ->
  ok r = false ->
  error_body r = Some body ->
  exists st',
    snd (handleAnalyze st w) = Normal st'
    /\ error st' = Some (resolved_message body (status r))
    /\ loading st' = false
    /\ analysis st' = analysis st.
Proof.
  intros Hfile Hnet Hok Hbody.
  rewrite (handleAnalyze_after_throw st w f _ _ Hfile
             (analyze_http_failure_message f w r body Hnet Hok Hbody)).
  eexists. split; [reflexivity |]. cbn. auto.
Qed.

Lemma page_shows_service_message_witness :
  exists st',
    snd (handleAnalyze (setImageFile (Some leaf_photo) initialPage)
           (world_answering (responds 500 model_unavailable) false))
    = Normal st'
    /\ error st' = Some "model unavailable"
    /\ loading st' = false
    /\ analysis st' = None.
Proof.
  exact (page_shows_service_message
           (setImageFile (Some leaf_photo) initialPage)
           (world_answering (responds 500 model_unavailable) false)
           leaf_photo (mkResponse 500 model_unavailable)
           (mkApiError (Some "model unavailable") None)
           eq_refl eq_refl eq_refl eq_refl).
Defined.

(** X8.  When the service answers with a success status and a body that
    parses, [handleAnalyze] stores that body with the time of the clock
    as the analysis, clears the error and [loading], and logs nothing. *)
Theorem page_after_success (st : PageState) (w : World) (f : File)
    (r : Response) (v : JsValue) :
  imageFile st = Some f ->
  network w (analyze_request f) = FetchResponds r ->
  ok r = true ->
  body_json r = JsonResolves v ->
  exists st',
    handleAnalyze st w = ([EvRequest (analyze_request f)], Normal st')
    /\ analysis st' = Some (mkAnalysis v (now w))
    /\ error st' = None
    /\ loading st' = false
    /\ imageFile st' = Some f.
Proof.
  intros Hfile Hnet Hok Hbody.
  unfold handleAnalyze, bind, try_catch.
  rewrite Hfile, (analyze_success f w r v Hnet Hok Hbody); cbn.
  eexists. split; [reflexivity |]. cbn. auto.
Qed.

Lemma page_after_success_witness :
  exists st',
    handleAnalyze (setImageFile (Some leaf_photo) initialPage)
      (world_answering (responds 200 (JsonResolves blight_report)) false)
    = ([EvRequest (analyze_request leaf_photo)], Normal st')
    /\ analysis st' = Some (mkAnalysis blight_report "1/15/2025, 10:00:00 AM")
    /\ error st' = None
    /\ loading st' = false
    /\ imageFile st' = Some leaf_photo.
Proof.
  exact (page_after_success
           (setImageFile (Some leaf_photo) initialPage)
           (world_answering (responds 200 (JsonResolves blight_report)) false)
           leaf_photo (mkResponse 200 (JsonResolves blight_report))
           blight_report eq_refl eq_refl eq_refl eq_refl).
Defined.

Lemma handleImageSelect_keeps_preview (st : PageState) (file : File) :
  image (fst (handleImageSelect st file)) = image st.
Proof.
  unfold handleImageSelect.
  destruct (declares_image file); cbn; [| reflexivity].
  destruct (oversized file); reflexivity.
Qed.

(** A preview is shown only while a file is held. *)
Lemma page_step_preview_has_file (c c' : PageConfig) (tr : list Event) :
  page_step c tr c' ->
  (imageFile (page c) = None -> image (page c) = None) ->
  (imageFile (page c') = None -> image (page c') = None).
Proof.
  intros Hstep Hinv.
  destruct Hstep as [c file | c before file after result Hsplit | c
                    | c w tr st' Hrun]; cbn.
  - rewrite handleImageSelect_keeps_file, handleImageSelect_keeps_preview.
    exact Hinv.
  - discriminate.
  - reflexivity.
  - assert (Hsnd : snd (handleAnalyze (page c) w) = Normal st')
      by now rewrite Hrun.
    destruct (handleAnalyze_keeps_preview _ _ _ Hsnd) as [-> ->].
    exact Hinv.
Qed.

Lemma page_run_preview_has_file (c c' : PageConfig) (tr : list Event) :
  page_run c tr c' ->
  (imageFile (page c) = None -> image (page c) = None) ->
  (imageFile (page c') = None -> image (page c') = None).
Proof.
  induction 1 as [c | c tr c' tr' c'' Hstep Hrun IH]; intros Hinv;
    [exact Hinv |].
  apply IH. exact (page_step_preview_has_file c c' tr Hstep Hinv).
Qed.

Lemma page_run_holds_checked (c c' : PageConfig) (tr : list Event) :
  page_run c tr c' -> holds_checked_files c -> holds_checked_files c'.
Proof.
  induction 1 as [c | c tr c' tr' c'' Hstep Hrun IH]; intros Hinv;
    [exact Hinv |].
  apply IH. exact (page_step_holds_checked c c' tr Hstep Hinv).
Qed.

(** X9.  Whatever has happened on the page since it was opened, the
    file it holds, if any, has passed both checks, and an analysis
    uploads exactly that file; while the page holds no file it shows no
    preview, and an analysis uploads nothing. *)
Theorem analysis_uploads_the_held_file (tr : list Event) (c : PageConfig)
    (w : World) :
  page_run initialConfig tr c ->
  match imageFile (page c) with
  | Some f =>
      passes_checks f = true
      /\ requests (fst (handleAnalyze (page c) w)) = [analyze_request f]
  | None =>
      image (page c) = None
      /\ requests (fst (handleAnalyze (page c) w)) = []
  end.
Proof.
  intros Hrun.
  pose proof (page_run_preview_has_file _ _ _ Hrun (fun _ => eq_refl))
    as Hpreview.
  destruct (page_run_holds_checked _ _ _ Hrun initialConfig_holds_checked)
    as [Hchecked _].
  rewrite handleAnalyze_requests.
  destruct (imageFile (page c)) as [f |]; auto.
Qed.

Lemma analysis_uploads_the_held_file_witness :
  passes_checks leaf_photo = true
  /\ requests
       (fst (handleAnalyze
               (onloadend leaf_photo (Some "data:image/jpeg;base64,AAAA")
                  initialPage)
               offline))
     = [analyze_request leaf_photo].
Proof.
  apply (analysis_uploads_the_held_file []
           {| page := onloadend leaf_photo (Some "data:image/jpeg;base64,AAAA")
                        initialPage;
              reading := [] |} offline).
  apply (run_step initialConfig [] (page_select leaf_photo initialConfig) []).
  - apply step_select.
  - apply (run_step (page_select leaf_photo initialConfig) []
             {| page := onloadend leaf_photo
                          (Some "data:image/jpeg;base64,AAAA") initialPage;
                reading := [] |} []
             {| page := onloadend leaf_photo
                          (Some "data:image/jpeg;base64,AAAA") initialPage;
                reading := [] |}).
    + apply (step_loadend (page_select leaf_photo initialConfig)
               [] leaf_photo [] (Some "data:image/jpeg;base64,AAAA")).
      reflexivity.
    + apply run_done.
Defined.

(** A file can be held without a preview: when the read of a selected
    file fails, [onloadend] still stores the file, with no data URL, and
    an analysis then uploads it. *)
Lemma failed_read_keeps_the_file :
  page_run initialConfig []
    {| page := onloadend leaf_photo None initialPage; reading := [] |}
  /\ image (onloadend leaf_photo None initialPage) = None
  /\ imageFile (onloadend leaf_photo None initialPage) = Some leaf_photo
  /\ requests (fst (handleAnalyze (onloadend leaf_photo None initialPage)
                      offline))
     = [analyze_request leaf_photo].
Proof.
  split; [| repeat split].
  apply (run_step initialConfig [] (page_select leaf_photo initialConfig) []).
  - apply step_select.
  - apply (run_step (page_select leaf_photo initialConfig) []
             {| page := onloadend leaf_photo None initialPage;
                reading := [] |} []
             {| page := onloadend leaf_photo None initialPage;
                reading := [] |}).
    + apply (step_loadend (page_select leaf_photo initialConfig)
               [] leaf_photo [] None).
      reflexivity.
    + apply run_done.
Qed.

(** X10.  A file that does not declare an image content type is ignored
    when it is dropped on the upload area: the page does not change and
    shows no message.  The same file chosen through the file input
    reaches the page's check and produces its error message.  In both
    cases no read is started. *)
Theorem dropped_file_is_filtered_silently (file : File) (rest : list File)
    (dragging : bool) (c : PageConfig) :
  declares_image file = false ->
  handleDrop page_select (file :: rest) dragging c = (false, c)
  /\ page (handleFileChange page_select (file :: rest) c)
     = setError (Some "Please select a valid image file") (page c)
  /\ reading (handleFileChange page_select (file :: rest) c) = reading c.
Proof.
  intros Htype. unfold handleDrop, handleFileChange, page_select.
  rewrite Htype. split; [reflexivity |].
  unfold handleImageSelect. rewrite Htype. cbn.
  split; [reflexivity | apply app_nil_r].
Qed.

Lemma dropped_file_is_filtered_silently_witness :
  handleDrop page_select [notes_txt] true initialConfig = (false, initialConfig)
  /\ page (handleFileChange page_select [notes_txt] initialConfig)
     = setError (Some "Please select a valid image file") initialPage
  /\ reading (handleFileChange page_select [notes_txt] initialConfig) = [].
Proof.
  exact (dropped_file_is_filtered_silently notes_txt [] true initialConfig
           eq_refl).
Defined.

(** X11.  The colour and the label of a severity always agree: green
    goes with "Healthy", yellow with "Mild", orange with "Moderate", and
    red with the three labels above 40.  A severity below zero is not
    refused: it is "Mild"; one that is not a number is "Critical". *)
Theorem severity_colour_matches_label (severity : JsNumber) :
  (getSeverityColor severity = "text-green-600"
   <-> getSeverityLabel severity = "Healthy")
  /\ (getSeverityColor severity = "text-yellow-600"
      <-> getSeverityLabel severity = "Mild")
  /\ (getSeverityColor severity = "text-orange-600"
      <-> getSeverityLabel severity = "Moderate")
  /\ (getSeverityColor severity = "text-red-600"
      <-> In (getSeverityLabel severity) ["Severe"; "Very Severe"; "Critical"])
  /\ (forall q, severity = Finite q -> (q < 0)%Q ->
                getSeverityLabel severity = "Mild")
  /\ (severity = NaN -> getSeverityLabel severity = "Critical").
Proof.
  repeat split; try (unfold getSeverityColor, getSeverityLabel;
    destruct (num_eq severity (Finite 0));
    destruct (num_le severity (Finite 20));
    destruct (num_le severity (Finite 40));
    destruct (num_le severity (Finite 60));
    destruct (num_le severity (Finite 80));
    cbn; intros; try reflexivity; try congruence;
    try (intuition congruence); auto; fail).
  - intros q -> Hneg. unfold getSeverityLabel, num_eq, num_le.
    replace (Qeq_bool q 0) with false.
    + replace (Qle_bool q 20) with true; [reflexivity |].
      symmetry. apply Qle_bool_iff.
      apply Qlt_le_weak, (Qlt_trans _ 0); [exact Hneg | reflexivity].
    + symmetry. apply not_true_iff_false. intros Heq.
      apply Qeq_bool_iff in Heq. rewrite Heq in Hneg.
      exact (Qlt_irrefl 0 Hneg).
  - intros ->. reflexivity.
Qed.

(** ** The language setting *)

(** X12.  In a window whose storage the page is denied, loading the
    module throws the [SecurityError] of its [typeof localStorage] test,
    which is made outside the [try], and so does the listener.  In every
    other scope, whatever the storage holds, and also when reading it
    throws or when there is no window or no storage, the module loads,
    the language the application starts with is one of "en", "kn" and
    "hi", and [getLocaleCode] gives its locale: one of the three of
    [localeMap]. *)
Theorem startup_language_is_supported (g : Globals)
    (res : gmap string (gmap string Translation)) :
  match g with
  | StorageDenied =>
      load g res = Throw SecurityError
      /\ forall lng, languageChanged g lng = Throw SecurityError
  | Reachable b =>
      exists i,
        load g res = Normal i
        /\ In (language i) validLanguages
        /\ In (getLocaleCode i) [JStr "en-US"; JStr "kn-IN"; JStr "hi-IN"]
  end.
Proof.
  destruct g as [| b]; [split; reflexivity |].
  exists (init b res). split; [reflexivity |].
  split; [| apply startup_locale_resolves].
  apply list_elem_of_In. exact (initialLanguage_valid b).
Qed.

(** X13.  The [languageChanged] listener writes no key but "i18nextLng":
    every other item of the storage is as before.  A change overrides
    the one before it: two changes in a row leave what the second alone
    would. *)
Theorem language_change_touches_one_key (b : Browser) (lng lng' : string) :
  has_window (fst (on_languageChanged b lng)) = has_window b
  /\ match localStorage b, localStorage (fst (on_languageChanged b lng)) with
     | Some s, Some s' =>
         forall key, key <> "i18nextLng" -> items s' !! key = items s !! key
     | None, None => True
     | _, _ => False
     end
  /\ fst (on_languageChanged (fst (on_languageChanged b lng)) lng')
     = fst (on_languageChanged b lng').
Proof.
  unfold on_languageChanged, setItem.
  destruct b as [[|] [[stored reads [|]] |]]; cbn; try (repeat split; fail).
  split; [reflexivity |]. split.
  - intros key Hkey. now apply lookup_insert_ne.
  - now rewrite insert_insert_eq.
Qed.

(** X14.  The listener stores the language it is given without checking
    it; the check is made at the next start.  A language outside the
    three supported ones is therefore kept in the storage, and the
    application then starts in "en". *)
Theorem unsupported_language_saved_but_ignored (b : Browser) (s : Storage)
    (lng : string) :
  ~ In lng validLanguages ->
  has_window b = true ->
  localStorage b = Some s ->
  setItem_throws s = false ->
  (exists s', localStorage (fst (on_languageChanged b lng)) = Some s'
              /\ items s' !! "i18nextLng" = Some lng)
  /\ initialLanguage (fst (on_languageChanged b lng)) = "en".
Proof.
  intros Hout Hwin Hstorage Hwrite.
  unfold on_languageChanged, setItem. rewrite Hwin, Hstorage, Hwrite. cbn.
  split.
  - eexists. split; [reflexivity |]. cbn. apply lookup_insert_eq.
  - unfold initialLanguage, getSavedLanguage, getItem. cbn.
    destruct (getItem_throws s); [reflexivity |].
    rewrite lookup_insert_eq. cbn.
    destruct (String.eqb lng ""); [reflexivity |].
    case_bool_decide as Hin; [| reflexivity].
    exfalso. apply Hout. now apply list_elem_of_In.
Qed.

Lemma unsupported_language_saved_but_ignored_witness :
  (exists s', localStorage (fst (on_languageChanged (browser_with ∅ false) "fr"))
              = Some s'
              /\ items s' !! "i18nextLng" = Some "fr")
  /\ initialLanguage (fst (on_languageChanged (browser_with ∅ false) "fr")) = "en".
Proof.
  apply (unsupported_language_saved_but_ignored (browser_with ∅ false)
           {| items := ∅; getItem_throws := false; setItem_throws := false |}
           "fr"); try reflexivity.
  cbn. intros [H | [H | [H | []]]]; discriminate H.
Defined.

(** ** The formatters *)

(** X16.  For a current language that is none of "en", "hi" and "kn"
    and not the name of a member of [Object.prototype], the three
    formatters render exactly as they do in English. *)
Theorem formatters_fall_back_to_English (h : Host) (i : I18n) (v : Q)
    (options : option NumberFormatOptions) (decimals : option Z)
    (showPlus : option bool) :
  language i <> "en" -> language i <> "hi" -> language i <> "kn" ->
  inherited (language i) = false ->
  formatNumber h i v options
  = formatNumber h (mkI18n "en" (resources i)) v options
  /\ formatDecimal h i v decimals
     = formatDecimal h (mkI18n "en" (resources i)) v decimals
  /\ formatNumberWithPercent h i v showPlus
     = formatNumberWithPercent h (mkI18n "en" (resources i)) v showPlus.
Proof.
  intros Hen Hhi Hkn Hinh.
  unfold formatNumberWithPercent, formatDecimal, formatNumber.
  rewrite (getLocaleCode_fallback i Hen Hhi Hkn Hinh).
  repeat split.
Qed.

Lemma formatters_fall_back_to_English_witness :
  formatNumber sample_host (mkI18n "fr" ∅) (1234567891 # 1000) None
  = formatNumber sample_host (mkI18n "en" ∅) (1234567891 # 1000) None
  /\ formatDecimal sample_host (mkI18n "fr" ∅) (1234567891 # 1000) (Some 2)
     = formatDecimal sample_host (mkI18n "en" ∅) (1234567891 # 1000) (Some 2)
  /\ formatNumberWithPercent sample_host (mkI18n "fr" ∅) (1234567891 # 1000)
       (Some true)
     = formatNumberWithPercent sample_host (mkI18n "en" ∅) (1234567891 # 1000)
         (Some true).
Proof.
  apply (formatters_fall_back_to_English sample_host (mkI18n "fr" ∅)
           (1234567891 # 1000) None (Some 2) (Some true));
    try discriminate; reflexivity.
Defined.

(** ** Month labels *)

(** X18.  For a current language that is a plain code (no subtags)
    other than "cimode", a month that has no translation in that
    language is shown with the text of the fallback language, "en",
    when that one exists, has no interpolation or nesting marker and is
    not empty. *)
Theorem month_label_falls_back_to_English (i : I18n) (m : Z)
    (key : string) (entry : Translation) :
  toLowerCase (language i) <> "cimode" ->
  language_part (language i) = language i ->
  array_get monthAbbrKeys m = Some key ->
  getResource i (language i) ("months." +:+ key) = None ->
  getResource i "en" ("months." +:+ key) = Some entry ->
  has_markers (raw entry) = false ->
  raw entry <> "" ->
  getMonthAbbr i m = JStr (raw entry).
Proof.
  intros Hmode Hplain Hkey Hcurrent Hen Hmarkers Hlabel.
  assert (Htext : extendTranslation entry = raw entry)
    by (unfold extendTranslation; now rewrite Hmarkers).
  rewrite <- Htext.
  apply (getMonthAbbr_translated i m key entry Hmode Hkey);
    [| now rewrite Htext].
  unfold resolve_hierarchy, fallbackLng. cbn [first_resource].
  now rewrite Hplain, Hcurrent, Hen.
Qed.

Lemma month_label_falls_back_to_English_witness :
  getMonthAbbr (mkI18n "kn" {[ "en" := {[ "months.jan" := plain "Jan" ]} ]}) 0
  = JStr "Jan".
Proof.
  apply (month_label_falls_back_to_English
           (mkI18n "kn" {[ "en" := {[ "months.jan" := plain "Jan" ]} ]}) 0
           "jan" (plain "Jan")); try reflexivity; discriminate.
Defined.

Lemma indexOf_absent (items : list string) (x : string) :
  ~ In x items -> indexOf items x = -1.
Proof.
  induction items as [| y items IH]; [reflexivity |].
  intros Hout. cbn [indexOf].
  destruct (String.eqb_spec y x) as [-> | Hne]; [exfalso; apply Hout; now left |].
  rewrite IH; [reflexivity |]. intros Hin. apply Hout. now right.
Qed.

(** X19.  The dashboard relabels a chart item whose month is one of its
    twelve English abbreviations with [getMonthAbbr] of that month's
    position, and leaves any other month as it is; in both cases the
    result is a string. *)
Theorem chart_month_is_localized (i : I18n) (month : string) :
  (forall k, chartMonths !! k = Some month ->
             localizedMonth i month = getMonthAbbr i (Z.of_nat k))
  /\ (~ In month chartMonths -> localizedMonth i month = JStr month)
  /\ exists label, localizedMonth i month = JStr label.
Proof.
  assert (Hknown : forall k, chartMonths !! k = Some month ->
                             localizedMonth i month = getMonthAbbr i (Z.of_nat k)).
  { intros k Hk. unfold chartMonths in Hk.
    do 12 (destruct k as [| k]; [injection Hk as <-; reflexivity |]).
    discriminate Hk. }
  assert (Hunknown : ~ In month chartMonths -> localizedMonth i month = JStr month).
  { intros Hout. unfold localizedMonth. now rewrite (indexOf_absent _ _ Hout). }
  split; [exact Hknown | split; [exact Hunknown |]].
  destruct (in_dec string_dec month chartMonths) as [Hin | Hout].
  - apply list_elem_of_In, list_elem_of_lookup in Hin as [k Hk].
    rewrite (Hknown k Hk). apply getMonthAbbr_string.
    apply lookup_lt_Some in Hk. cbn in Hk. lia.
  - exists month. exact (Hunknown Hout).
Qed.

(** ** The soil analysis page *)

(** X20.  For each of the five soil parameters that have advice and for
    every finite value, the icon and the text of a result row agree: the
    row is marked optimal exactly when its text is the one that asks for
    nothing. *)
Theorem soil_icon_matches_advice (key : string) (value : Q) :
  In key nutrientKeys ->
  isOptimal key (Finite value) = true
  <-> In (getRecommendation key (Finite value)) reassuring.
Proof.
  unfold nutrientKeys.
  intros [<- | [<- | [<- | [<- | [<- | []]]]]];
    unfold isOptimal, getRecommendation, num_ge, num_gt, num_lt, num_le;
    cbn [String.eqb Ascii.eqb Bool.eqb andb orb object_get own_property
         js_or ToBoolean negb];
    repeat match goal with
           | |- context [Qle_bool ?a ?b] => destruct (Qle_bool a b)
           end;
    cbn; split; intros H; try reflexivity; try discriminate;
      try (repeat destruct H as [H | H]; try discriminate; try contradiction);
      auto 10.
Qed.

Lemma soil_icon_matches_advice_witness :
  isOptimal "ph" (Finite (13 # 2)) = true
  <-> In (getRecommendation "ph" (Finite (13 # 2))) reassuring.
Proof.
  apply (soil_icon_matches_advice "ph" (13 # 2)). left. reflexivity.
Defined.

(** X21.  Where the icon and the text of a result row disagree.  A
    field left empty holds [NaN]: for each of the five parameters the
    row is then marked as not optimal while its text asks for nothing.
    The temperature has no advice of its own: whatever its value, its
    row is marked as not optimal and its text is "Level is normal". *)
Theorem soil_icon_contradicts_advice (key : string) (value : JsNumber) :
  (In key nutrientKeys ->
   isOptimal key NaN = false /\ In (getRecommendation key NaN) reassuring)
  /\ isOptimal "temperature" value = false
  /\ getRecommendation "temperature" value = JStr "Level is normal".
Proof.
  split; [| split; reflexivity].
  unfold nutrientKeys.
  intros [<- | [<- | [<- | [<- | [<- | []]]]]]; split; cbn; auto 10.
Qed.

(** ** Signing in and out *)

(** X22.  With a storage that works, signing in stores the role and the
    flag and leads to the dashboard, whose guard then lets the user
    stay; signing out removes both, and the guard then sends the user to
    the sign-in page. *)
Theorem sign_in_then_out (s : Storage) (role : string) :
  setItem_throws s = false ->
  getItem_throws s = false ->
  exists s1 s2,
    handleSubmit role s = Normal (s1, "/dashboard")
    /\ items s1 !! "userRole" = Some role
    /\ authGuard s1 = Normal None
    /\ handleLogout s1 = Normal s2
    /\ items s2 !! "userRole" = None
    /\ authGuard s2 = Normal (Some "/auth").
Proof.
  intros Hwrite Hread. destruct s as [stored reads writes].
  cbn in Hwrite, Hread. subst reads writes.
  unfold handleSubmit, handleLogout, authGuard, setItem, removeItem, getItem.
  cbn. do 2 eexists. split; [reflexivity |]. cbn.
  split; [| split; [| split; [reflexivity | split]]].
  - rewrite lookup_insert_ne by discriminate. apply lookup_insert_eq.
  - now rewrite lookup_insert_eq.
  - cbn. apply lookup_delete_eq.
  - cbn. rewrite lookup_delete_ne by discriminate.
    now rewrite lookup_delete_eq.
Qed.

Lemma sign_in_then_out_witness :
  exists s1 s2,
    handleSubmit "farmer" (mkStorage ∅ false false) = Normal (s1, "/dashboard")
    /\ items s1 !! "userRole" = Some "farmer"
    /\ authGuard s1 = Normal None
    /\ handleLogout s1 = Normal s2
    /\ items s2 !! "userRole" = None
    /\ authGuard s2 = Normal (Some "/auth").
Proof.
  exact (sign_in_then_out (mkStorage ∅ false false) "farmer" eq_refl eq_refl).
Defined.

(** X23.  Signing in and signing out leave the saved language alone:
    across either of them the application would start in the same
    language as before. *)
Theorem signing_keeps_language (s s1 s2 : Storage) (role route : string) :
  handleSubmit role s = Normal (s1, route) ->
  handleLogout s1 = Normal s2 ->
  initialLanguage (mkBrowser true (Some s1))
  = initialLanguage (mkBrowser true (Some s))
  /\ initialLanguage (mkBrowser true (Some s2))
     = initialLanguage (mkBrowser true (Some s)).
Proof.
  unfold handleSubmit, handleLogout, setItem, removeItem.
  destruct s as [stored reads writes]; cbn.
  destruct writes; cbn; [discriminate |].
  intros [= <- <-]. cbn.
  destruct reads; cbn; [discriminate |].
  intros [= <-].
  unfold initialLanguage, getSavedLanguage, getItem; cbn.
  rewrite !lookup_delete_ne, !lookup_insert_ne by discriminate.
  split; reflexivity.
Qed.

Lemma signing_keeps_language_witness :
  initialLanguage
    (mkBrowser true
       (Some (mkStorage (<["isAuthenticated" := "true"]>
                           (<["userRole" := "farmer"]>
                              {["i18nextLng" := "kn"]})) false false)))
  = initialLanguage
      (mkBrowser true (Some (mkStorage {["i18nextLng" := "kn"]} false false)))
  /\ initialLanguage
       (mkBrowser true
          (Some (mkStorage
                   (delete "userRole"
                      (delete "isAuthenticated"
                         (<["isAuthenticated" := "true"]>
                            (<["userRole" := "farmer"]>
                               {["i18nextLng" := "kn"]})))) false false)))
     = initialLanguage
         (mkBrowser true (Some (mkStorage {["i18nextLng" := "kn"]} false false))).
Proof.
  exact (signing_keeps_language
           (mkStorage {["i18nextLng" := "kn"]} false false) _ _
           "farmer" "/dashboard" eq_refl eq_refl).
Defined.
